(** * AI-powered customer support system: knowledge base and support agent

    A shallow embedding of [utils/knowledge_base.py] (class
    [KnowledgeBaseManager]) and [models/ai_agent.py] (class
    [CustomerSupportAgent]), with the properties of the ingestion, retrieval
    and conversation pipeline stated and proved over it.

    The Python code is a thin layer over third-party services: document
    loaders, a text splitter, an embedding model behind a Chroma vector store,
    and a chat model driven by an agent executor.  Those services are not part
    of the repository; they appear here as interfaces ([Platform],
    [VectorStore]) whose operations may raise, exactly where the Python code
    calls them.  What is embedded from the source is the control flow around
    them: the [try]/[except] blocks, the loops, the string formatting and the
    writes to the conversation memory. *)

From Stdlib Require Import ZArith Lia Ascii.
From stdpp Require Import base strings gmap list pretty.

Local Open Scope Z_scope.

(** ** Results and the state-and-exception monad *)

(** A Python call either returns a value or raises an [Exception]; the payload
    of [Raise] is [str(e)], which is all the code ever reads of an exception. *)
Inductive result (A : Type) : Type :=
| Ok (a : A)
| Raise (e : string).
Arguments Ok {A} a.
Arguments Raise {A} e.

Definition is_ok {A} (r : result A) : bool :=
  match r with Ok _ => true | Raise _ => false end.

(** Computations over a mutable state [St].  A raised exception keeps the
    state reached so far, as in Python. *)
Definition M (St A : Type) : Type := St → result A * St.

Definition ret {St A} (a : A) : M St A := λ s, (Ok a, s).

Definition raise {St A} (e : string) : M St A := λ s, (Raise e, s).

Definition bind {St A B} (m : M St A) (k : A → M St B) : M St B :=
  λ s, match m s with
       | (Ok a, s') => k a s'
       | (Raise e, s') => (Raise e, s')
       end.

(** [try: m except Exception as e: h e] *)
Definition try_except {St A} (m : M St A) (h : string → M St A) : M St A :=
  λ s, match m s with
       | (Ok a, s') => (Ok a, s')
       | (Raise e, s') => h e s'
       end.

Definition gets {St A} (f : St → A) : M St A := λ s, (Ok (f s), s).

Definition modify {St} (f : St → St) : M St unit := λ s, (Ok tt, f s).

(** Run a computation on a component of the state. *)
Definition zoom {St T A} (get : St → T) (set : T → St → St) (m : M T A)
  : M St A :=
  λ s, let '(r, t) := m (get s) in (r, set t s).

(** The [x ← m; k] and [m;; k] notations of stdpp. *)
#[global] Instance M_ret {St} : MRet (M St) := λ A, @ret St A.
#[global] Instance M_bind {St} : MBind (M St) := λ A B k m, @bind St A B m k.

(** ** Python values and library functions used by the code *)

(** The values stored in the dictionaries the code reads and builds
    ([config], the status and collection-info dictionaries).  A float is kept
    as its literal: the code only passes it along. *)
Inductive pyval : Type :=
| PNone
| PStr (s : string)
| PInt (z : Z)
| PFloat (literal : string).

Module Py.

(** [bool(l)] for a list: non-empty. *)
Definition truthy {A} (l : list A) : bool :=
  match l with [] => false | _ :: _ => true end.

(** [sep.join(l)] *)
Fixpoint join (sep : string) (l : list string) : string :=
  match l with
  | [] => ""
  | [x] => x
  | x :: rest => x +:+ sep +:+ join sep rest
  end.

(** The newline character, written [\n] in the Python literals. *)
Definition nl : string := String "010"%char "".

(** [int(s)] on a string of decimal digits. *)
Definition digit_value (c : ascii) : option Z :=
  let n := Z.of_N (Ascii.N_of_ascii c) in
  if (48 <=? n) && (n <=? 57) then Some (n - 48) else None.

Fixpoint int_of_digits (acc : Z) (s : string) : option Z :=
  match s with
  | EmptyString => Some acc
  | String c s' =>
      match digit_value c with
      | Some d => int_of_digits (10 * acc + d) s'
      | None => None
      end
  end.

(** [str(n)] and the [{n}] of an f-string, for an integer. *)
Definition str_int (n : Z) : string := pretty n.

Fixpoint zeros (n : nat) : string :=
  match n with O => "" | S n' => String "0"%char (zeros n') end.

(** [s.zfill(width)] on a string of digits. *)
Definition zfill (width : nat) (s : string) : string :=
  zeros (width - String.length s) +:+ s.

(** [f"{n:04d}"]: decimal, padded with zeros to width 4, the sign counted
    in the width. *)
Definition format_04d (n : Z) : string :=
  if n <? 0 then "-" +:+ zfill 3 (str_int (- n)) else zfill 4 (str_int n).

(** [s.lower()] on the ASCII letters.  A path is a byte string here; on the
    bytes of a non-ASCII character [lower] is the identity, which never
    turns an extension into one of the four the loader dispatches on. *)
Definition lower_ascii (c : ascii) : ascii :=
  let n := Ascii.N_of_ascii c in
  if ((65 <=? n) && (n <=? 90))%N then Ascii.ascii_of_N (n + 32) else c.

Fixpoint lower (s : string) : string :=
  match s with
  | EmptyString => EmptyString
  | String c s' => String (lower_ascii c) (lower s')
  end.

(** [p.rfind(c)]: the index of the last [c] in [p], or [-1]. *)
Fixpoint rfind_from (c : ascii) (p : string) (i last : Z) : Z :=
  match p with
  | EmptyString => last
  | String a p' =>
      rfind_from c p' (i + 1) (if Ascii.eqb a c then i else last)
  end.

Definition rfind (c : ascii) (p : string) : Z := rfind_from c p 0 (-1).

(** The [while filenameIndex < dotIndex] loop of [genericpath._splitext]:
    is there a character other than the dot in [p[from:from+n]]? *)
Fixpoint has_non_dot (p : string) (from n : nat) : bool :=
  match n with
  | O => false
  | S n' =>
      match String.get from p with
      | Some c =>
          if Ascii.eqb c "."%char then has_non_dot p (S from) n' else true
      | None => true
      end
  end.

(** [os.path.splitext(p)] (POSIX): the extension starts at the last dot of
    the last path component, leading dots of that component not counted. *)
Definition splitext (p : string) : string * string :=
  let sepIndex := rfind "/"%char p in
  let dotIndex := rfind "."%char p in
  if (sepIndex <? dotIndex)
     && has_non_dot p (Z.to_nat (sepIndex + 1))
                    (Z.to_nat (dotIndex - (sepIndex + 1)))
  then (String.substring 0 (Z.to_nat dotIndex) p,
        String.substring (Z.to_nat dotIndex)
                         (String.length p - Z.to_nat dotIndex) p)
  else (p, "").

End Py.

(** ** The data model *)

(** A LangChain [Document]: text and metadata.  Chunks are documents too. *)
Record Document : Type := mkDocument {
  page_content : string;
  metadata : gmap string string;
}.

(** A conversation message ([HumanMessage] / [AIMessage]). *)
Inductive BaseMessage : Type :=
| HumanMessage (content : string)
| AIMessage (content : string).

Inductive LogLevel : Type := INFO | WARNING | ERROR.

Record LogRecord : Type := mkLog {
  levelname : LogLevel;
  message : string;
}.

(** [RecursiveCharacterTextSplitter(chunk_size=..., chunk_overlap=...,
    length_function=len)] *)
Record TextSplitter : Type := mkSplitter {
  chunk_size : Z;
  chunk_overlap : Z;
}.

(** The loader objects [load_document] chooses between. *)
Inductive Loader : Type :=
| TextLoader (file_path : string) (encoding : string)
| PyPDFLoader (file_path : string)
| CSVLoader (file_path : string)
| UnstructuredMarkdownLoader (file_path : string).

(** ** The external services *)

(** What the code asks of the file system, the document loaders, the text
    splitter, the interpreter and the clock. *)
Class Platform : Type := {
  (** [os.path.exists(path)] *)
  os_path_exists : string → bool;
  (** building the loader and calling [loader.load()] *)
  loader_load : Loader → result (list Document);
  (** [text_splitter.split_documents(documents)] *)
  split_documents : TextSplitter → list Document → result (list Document);
  (** the built-in [hash] on strings, fixed for one interpreter process *)
  py_hash : string → Z;
  (** [datetime.now().strftime("%Y-%m-%d %H:%M:%S")] at a given instant *)
  strftime_at : nat → string;
}.

(** The Chroma client and the LangChain vector store over it, as a state [DB]
    with the five operations the code calls.  Each may raise (the embedding
    service and the store are remote or on disk) and may change the state. *)
Class VectorStore (DB : Type) : Type := {
  (** [vector_store.add_documents(chunks)]: embed and write *)
  vs_add_documents : list Document → M DB unit;
  (** [vector_store.persist()] *)
  vs_persist : M DB unit;
  (** [vector_store.similarity_search(query, k=k)] *)
  vs_similarity_search : string → Z → M DB (list Document);
  (** [chroma_client.get_collection(name).count()] *)
  client_collection_count : string → M DB Z;
  (** [chroma_client.reset()] *)
  client_reset : M DB unit;
}.

(** The mutable world of the knowledge base: the store, the log written
    through [logger], and the instant the clock is at. *)
Record Env (DB : Type) : Type := mkEnv {
  store : DB;
  log : list LogRecord;
  instant : nat;
}.
Arguments mkEnv {DB} _ _ _.
Arguments store {DB} _.
Arguments log {DB} _.
Arguments instant {DB} _.

(** The world of an agent: its conversation memory
    ([self.memory.chat_memory.messages]) and the knowledge-base world. *)
Record World (DB : Type) : Type := mkWorld {
  chat_memory : list BaseMessage;
  env : Env DB;
}.
Arguments mkWorld {DB} _ _.
Arguments chat_memory {DB} _.
Arguments env {DB} _.

Section Embedding.
Context {DB : Type} `{!VectorStore DB} `{!Platform}.

(** *** Logging and access to the store *)

Definition emit (lvl : LogLevel) (msg : string) : M (Env DB) unit :=
  modify (λ w, mkEnv (store w) (log w ++ [mkLog lvl msg]) (instant w)).

Definition logger_info : string → M (Env DB) unit := emit INFO.
Definition logger_warning : string → M (Env DB) unit := emit WARNING.
Definition logger_error : string → M (Env DB) unit := emit ERROR.

Definition on_store {A} (m : M DB A) : M (Env DB) A :=
  zoom store (λ s w, mkEnv s (log w) (instant w)) m.

Definition lift_result {A} (r : result A) : M (Env DB) A :=
  λ w, (r, w).

(** *** [KnowledgeBaseManager] *)

Record KnowledgeBaseManager : Type := mkKB {
  persist_directory : string;
  text_splitter : TextSplitter;
}.

(** [__init__]: the splitter is built with [chunk_size=500] and
    [chunk_overlap=100]; the client and the vector store it opens are the
    [store] of the world. *)
Definition KnowledgeBaseManager_init (persist_directory : string)
  : KnowledgeBaseManager :=
  mkKB persist_directory (mkSplitter 500 100).

(** chromadb's [Settings], as far as the code is concerned: the two switches
    and their defaults.  Under [allow_reset=False] the client's [reset()]
    raises. *)
Record Settings : Type := mkSettings {
  anonymized_telemetry : bool;
  allow_reset : bool;
}.

Definition Settings_default : Settings := mkSettings true false.

(** The settings [__init__] builds the client with,
    [Settings(anonymized_telemetry=False)]: [allow_reset] is not given. *)
Definition KnowledgeBaseManager_settings : Settings :=
  mkSettings false (allow_reset Settings_default).

Definition file_extension_of (file_path : string) : string :=
  Py.lower (snd (Py.splitext file_path)).

(** The [if]/[elif] chain of [load_document]; [None] is the [else] branch. *)
Definition select_loader (file_extension file_path : string)
  : option Loader :=
  if String.eqb file_extension ".txt" then Some (TextLoader file_path "utf-8")
  else if String.eqb file_extension ".pdf" then Some (PyPDFLoader file_path)
  else if String.eqb file_extension ".csv" then Some (CSVLoader file_path)
  else if String.eqb file_extension ".md"
       then Some (UnstructuredMarkdownLoader file_path)
  else None.

Definition load_document (self : KnowledgeBaseManager) (file_path : string)
  : M (Env DB) (list Document) :=
  let file_extension := file_extension_of file_path in
  try_except
    (loader ← match select_loader file_extension file_path with
              | Some loader => ret loader
              | None => raise ("Unsupported file type: " +:+ file_extension)
              end;
     documents ← lift_result (loader_load loader);
     logger_info ("Loaded " +:+ Py.str_int (Z.of_nat (length documents))
                  +:+ " documents from " +:+ file_path);;
     ret documents)
    (λ e,
     logger_error ("Error loading document " +:+ file_path +:+ ": " +:+ e);;
     ret []).

Definition process_documents (self : KnowledgeBaseManager)
  (documents : list Document) : M (Env DB) (list Document) :=
  try_except
    (chunks ← lift_result (split_documents (text_splitter self) documents);
     logger_info ("Split " +:+ Py.str_int (Z.of_nat (length documents))
                  +:+ " documents into "
                  +:+ Py.str_int (Z.of_nat (length chunks)) +:+ " chunks");;
     ret chunks)
    (λ e,
     logger_error ("Error processing documents: " +:+ e);;
     ret []).

(** The [for file_path in file_paths] loop of [add_documents], threading
    [all_chunks]. *)
Fixpoint gather_chunks (self : KnowledgeBaseManager)
  (file_paths : list string) (all_chunks : list Document)
  : M (Env DB) (list Document) :=
  match file_paths with
  | [] => ret all_chunks
  | file_path :: rest =>
      if negb (os_path_exists file_path) then
        logger_warning ("File not found: " +:+ file_path);;
        gather_chunks self rest all_chunks
      else
        documents ← load_document self file_path;
        if Py.truthy documents then
          chunks ← process_documents self documents;
          gather_chunks self rest (all_chunks ++ chunks)
        else gather_chunks self rest all_chunks
  end.

Definition add_documents (self : KnowledgeBaseManager)
  (file_paths : list string) : M (Env DB) bool :=
  try_except
    (all_chunks ← gather_chunks self file_paths [];
     if Py.truthy all_chunks then
       on_store (vs_add_documents all_chunks);;
       on_store vs_persist;;
       logger_info ("Successfully added "
                    +:+ Py.str_int (Z.of_nat (length all_chunks))
                    +:+ " chunks to knowledge base");;
       ret true
     else ret false)
    (λ e,
     logger_error ("Error adding documents: " +:+ e);;
     ret false).

(** [search(query, k=5)]; every caller in the repository passes [k]. *)
Definition search (self : KnowledgeBaseManager) (query : string) (k : Z)
  : M (Env DB) (list string) :=
  try_except
    (results ← on_store (vs_similarity_search query k);
     ret (page_content <$> results))
    (λ e,
     logger_error ("Error searching knowledge base: " +:+ e);;
     ret []).

Definition get_collection_info (self : KnowledgeBaseManager)
  : M (Env DB) (gmap string pyval) :=
  try_except
    (count ← on_store (client_collection_count "langchain");
     ret (<["total_documents" := PInt count]>
          (<["persist_directory" := PStr (persist_directory self)]> ∅)))
    (λ e,
     logger_error ("Error getting collection info: " +:+ e);;
     ret (<["total_documents" := PInt 0]>
          (<["persist_directory" := PStr (persist_directory self)]> ∅))).

Definition clear_knowledge_base (self : KnowledgeBaseManager)
  : M (Env DB) bool :=
  try_except
    (on_store client_reset;;
     logger_info "Knowledge base cleared successfully";;
     ret true)
    (λ e,
     logger_error ("Error clearing knowledge base: " +:+ e);;
     ret false).

End Embedding.

(** ** The agent *)

(** One step planned by the chat model: a final answer, or a request to run
    a tool on named arguments. *)
Inductive AgentStep : Type :=
| AgentFinish (output : string)
| AgentAction (tool : string) (tool_input : gmap string string).

(** The chat model behind [create_openai_functions_agent]: from the history,
    the input and the tool calls made so far in the turn (with what each
    returned) to the next step.  It is sampled, so the answer may depend on
    the instant of the call, and the call may fail. *)
Class ChatModel : Type := {
  agent_plan : nat → list BaseMessage → string →
               list (string * gmap string string * string) → result AgentStep;
}.

Section Agent.
Context {DB : Type} `{!VectorStore DB} `{!Platform}.

(** *** The tools of [_create_tools] *)

Definition search_knowledge_base (kb : KnowledgeBaseManager)
  (query : string) : M (Env DB) string :=
  try_except
    (results ← search kb query 2;
     if Py.truthy results then
       ret ("Found relevant information:" +:+ Py.nl
            +:+ Py.join (Py.nl +:+ Py.nl) results)
     else ret "No relevant information found in the knowledge base.")
    (λ e,
     logger_error ("Error searching knowledge base: " +:+ e);;
     ret ("Error searching knowledge base: " +:+ e)).

Definition get_customer_info (customer_id : string) : M (Env DB) string :=
  ret ("Customer ID " +:+ customer_id
       +:+ ": Basic customer information retrieved. "
       +:+ "For detailed info, please check the CRM system.").

Definition ticket_id_of (issue : string) : string :=
  "TKT-" +:+ Py.format_04d (py_hash issue `mod` 10000).

(** [create_support_ticket(issue, priority="medium")]; [None] is the
    omitted argument. *)
Definition create_support_ticket (issue : string) (priority : option string)
  : M (Env DB) string :=
  let priority := default "medium" priority in
  let ticket_id := ticket_id_of issue in
  ret ("Support ticket created: " +:+ ticket_id +:+ Py.nl
       +:+ "Issue: " +:+ issue +:+ Py.nl
       +:+ "Priority: " +:+ priority +:+ Py.nl
       +:+ "Status: Open").

(** Reading the clock; the next reading is of a later instant. *)
Definition _get_current_timestamp : M (Env DB) string :=
  λ w, (Ok (strftime_at (instant w)),
        mkEnv (store w) (log w) (S (instant w))).

Definition escalate_issue (issue reason : string) : M (Env DB) string :=
  timestamp ← _get_current_timestamp;
  ret ("Issue escalated successfully." +:+ Py.nl
       +:+ "Issue: " +:+ issue +:+ Py.nl
       +:+ "Reason: " +:+ reason +:+ Py.nl
       +:+ "Escalation timestamp: " +:+ timestamp).

Definition provide_solution_steps (problem : string) : M (Env DB) string :=
  ret ("Here are the steps to resolve: " +:+ problem +:+ Py.nl
       +:+ "1. First, try the basic troubleshooting" +:+ Py.nl
       +:+ "2. If that doesn't work, check the advanced options" +:+ Py.nl
       +:+ "3. Contact support if the issue persists").

(** A tool as the executor sees it: a name and a function of the named
    arguments the model supplies.  A required argument that is missing
    fails the validation of the call. *)
Record Tool : Type := mkTool {
  tool_name : string;
  tool_run : gmap string string → M (Env DB) string;
}.

Definition required (args : gmap string string) (name : string)
  : M (Env DB) string :=
  match args !! name with
  | Some v => ret v
  | None => raise ("Field required: " +:+ name)
  end.

Definition _create_tools (kb : KnowledgeBaseManager) : list Tool :=
  [ mkTool "search_knowledge_base"
      (λ args, query ← required args "query";
               search_knowledge_base kb query);
    mkTool "get_customer_info"
      (λ args, customer_id ← required args "customer_id";
               get_customer_info customer_id);
    mkTool "create_support_ticket"
      (λ args, issue ← required args "issue";
               create_support_ticket issue (args !! "priority"));
    mkTool "escalate_issue"
      (λ args, issue ← required args "issue";
               reason ← required args "reason";
               escalate_issue issue reason);
    mkTool "provide_solution_steps"
      (λ args, problem ← required args "problem";
               provide_solution_steps problem) ].

(** *** [CustomerSupportAgent] *)

(** [agent_executor] stands for [self.agent_executor.invoke({"input": m})];
    the dictionary it returns is kept to its text entries. *)
Record CustomerSupportAgent : Type := mkAgent {
  knowledge_base : KnowledgeBaseManager;
  config : gmap string pyval;
  tools : list Tool;
  agent_executor : string → M (World DB) (gmap string string);
}.

Definition in_env {A} (m : M (Env DB) A) : M (World DB) A :=
  zoom env (λ e w, mkWorld (chat_memory w) e) m.

(** [self.memory.chat_memory.add_user_message] / [add_ai_message] *)
Definition add_user_message (text : string) : M (World DB) unit :=
  modify (λ w, mkWorld (chat_memory w ++ [HumanMessage text]) (env w)).

Definition add_ai_message (text : string) : M (World DB) unit :=
  modify (λ w, mkWorld (chat_memory w ++ [AIMessage text]) (env w)).

Definition error_response_of (e : string) : string :=
  "I apologize, but I encountered an error while processing your request. "
  +:+ "Please try again or contact human support if the issue persists. "
  +:+ "Error: " +:+ e.

Definition process_message (self : CustomerSupportAgent)
  (user_message : string) : M (World DB) string :=
  try_except
    (add_user_message user_message;;
     response ← agent_executor self user_message;
     let ai_response :=
       default "I apologize, but I couldn't process your request."
               (response !! "output") in
     add_ai_message ai_response;;
     ret ai_response)
    (λ e,
     in_env (logger_error ("Error processing message: " +:+ e));;
     let error_response := error_response_of e in
     add_ai_message error_response;;
     ret error_response).

Definition get_conversation_history (self : CustomerSupportAgent)
  : M (World DB) (list BaseMessage) :=
  gets chat_memory.

Definition clear_memory (self : CustomerSupportAgent) : M (World DB) unit :=
  modify (λ w, mkWorld [] (env w));;
  in_env (logger_info "Conversation memory cleared").

Definition get_agent_status (self : CustomerSupportAgent)
  : M (World DB) (gmap string pyval) :=
  messages ← gets chat_memory;
  ret (<["model" :=
           default (PStr "gemini-1.5-flash") (config self !! "GEMINI_MODEL")]>
       (<["temperature" :=
           default (PFloat "0.7") (config self !! "TEMPERATURE")]>
       (<["max_tokens" := default (PInt 500) (config self !! "MAX_TOKENS")]>
       (<["memory_length" := PInt (Z.of_nat (length messages))]>
       (<["tools_available" := PInt (Z.of_nat (length (tools self)))]>
        ∅))))).

(** *** The agent executor of LangChain

    [AgentExecutor(agent, tools, memory=self.memory, ...)] is library code.
    Two of its behaviours matter to [process_message] and are written out
    here as the library documents them.  [AgentExecutor_call] is the
    plan-and-act loop: ask the model for a step, run the requested tool and
    record its observation, until the model finishes or [max_iterations]
    (15 by default) steps were taken.  [AgentExecutor_invoke] is
    [Chain.invoke] for a chain with a memory attached: the history is read
    from the memory before the call, and after a call that returned,
    [memory.save_context] appends the input and the output to the same
    memory.  A call that raises saves nothing. *)

Definition max_iterations : nat := 15.

Definition find_tool (tools : list Tool) (name : string) : option Tool :=
  List.find (λ t, String.eqb (tool_name t) name) tools.

Definition run_tool (tools : list Tool) (name : string)
  (tool_input : gmap string string) : M (Env DB) string :=
  match find_tool tools name with
  | Some t => tool_run t tool_input
  | None =>
      ret (name +:+ " is not a valid tool, try one of ["
           +:+ Py.join ", " (tool_name <$> tools) +:+ "].")
  end.

Definition ask_model `{!ChatModel} (chat_history : list BaseMessage)
  (input : string)
  (intermediate_steps : list (string * gmap string string * string))
  : M (Env DB) AgentStep :=
  λ w, (agent_plan (instant w) chat_history input intermediate_steps,
        mkEnv (store w) (log w) (S (instant w))).

Fixpoint AgentExecutor_loop `{!ChatModel} (iterations : nat)
  (tools : list Tool) (chat_history : list BaseMessage) (input : string)
  (intermediate_steps : list (string * gmap string string * string))
  : M (Env DB) string :=
  match iterations with
  | O => ret "Agent stopped due to iteration limit or time limit."
  | S iterations' =>
      step ← ask_model chat_history input intermediate_steps;
      match step with
      | AgentFinish output => ret output
      | AgentAction tool tool_input =>
          observation ← run_tool tools tool tool_input;
          AgentExecutor_loop iterations' tools chat_history input
            (intermediate_steps ++ [(tool, tool_input, observation)])
      end
  end.

Definition AgentExecutor_call `{!ChatModel} (tools : list Tool)
  (chat_history : list BaseMessage) (input : string) : M (Env DB) string :=
  AgentExecutor_loop max_iterations tools chat_history input [].

Definition AgentExecutor_invoke
  (call : list BaseMessage → string → M (Env DB) string) (input : string)
  : M (World DB) (gmap string string) :=
  chat_history ← gets chat_memory;
  output ← in_env (call chat_history input);
  add_user_message input;;
  add_ai_message output;;
  ret (<["input" := input]> (<["output" := output]> ∅)).

(** [__init__]: the executor is built over the tools and shares the
    agent's memory. *)
Definition CustomerSupportAgent_init `{!ChatModel}
  (knowledge_base : KnowledgeBaseManager) (config : gmap string pyval)
  : CustomerSupportAgent :=
  let tools := _create_tools knowledge_base in
  mkAgent knowledge_base config tools
          (AgentExecutor_invoke (AgentExecutor_call tools)).

End Agent.

Arguments Tool : clear implicits.
Arguments CustomerSupportAgent : clear implicits.

(** ** What a batch of files amounts to

    The values the loading and chunking steps compute, read off the platform
    alone.  The lemmas below show that the stateful code returns exactly
    these, whatever the store, the log and the clock hold. *)
Section Views.
Context `{!Platform}.

(** The documents [load_document] returns for a path. *)
Definition documents_of (file_path : string) : list Document :=
  match select_loader (file_extension_of file_path) file_path with
  | Some loader =>
      match loader_load loader with
      | Ok documents => documents
      | Raise _ => []
      end
  | None => []
  end.

(** The chunks [process_documents] returns for a list of documents. *)
Definition chunks_of (splitter : TextSplitter) (documents : list Document)
  : list Document :=
  match split_documents splitter documents with
  | Ok chunks => chunks
  | Raise _ => []
  end.

(** The chunks one path of a batch contributes to [all_chunks]. *)
Definition file_chunks (self : KnowledgeBaseManager) (file_path : string)
  : list Document :=
  if os_path_exists file_path then
    let documents := documents_of file_path in
    if Py.truthy documents then chunks_of (text_splitter self) documents
    else []
  else [].

Definition batch_chunks (self : KnowledgeBaseManager)
  (file_paths : list string) : list Document :=
  List.flat_map (file_chunks self) file_paths.

Definition not_found (file_path : string) : LogRecord :=
  mkLog WARNING ("File not found: " +:+ file_path).

Definition missing_paths (file_paths : list string) : list string :=
  List.filter (λ p, negb (os_path_exists p)) file_paths.

Definition supported_extensions : list string :=
  [".txt"; ".pdf"; ".csv"; ".md"].

End Views.

Section StoreViews.
Context {DB : Type} `{!VectorStore DB}.

(** The two store calls of [add_documents], in sequence. *)
Definition write_chunks (chunks : list Document) : M DB unit :=
  vs_add_documents chunks;; vs_persist.

(** Whether writing the chunks goes through without an error. *)
Definition stored (chunks : list Document) (s : DB) : bool :=
  is_ok (fst (write_chunks chunks s)).

(** The world differs from an earlier one by log records only. *)
Definition only_logged (w w' : Env DB) : Prop :=
  store w' = store w ∧ instant w' = instant w
  ∧ ∃ records, log w' = log w ++ records.

End StoreViews.

(** ** A small installation to run the code on

    An in-memory store, a file system of four files and two chat models.
    They are used to evaluate the functions on concrete inputs; no general
    statement below depends on them. *)
Module Demo.

(** The store: whether the client was configured to allow a reset, whether
    the embedding service answers, and the chunks of the collection
    ([None] when the collection does not exist). *)
Record MemStore : Type := mkMem {
  reset_allowed : bool;
  embedding_up : bool;
  collection : option (list Document);
}.

Definition contains (needle hay : string) : bool :=
  match String.index 0 needle hay with Some _ => true | None => false end.

#[local] Instance mem_store : VectorStore MemStore := {
  vs_add_documents chunks s :=
    if embedding_up s then
      (Ok tt, mkMem (reset_allowed s) true
                    (Some (default [] (collection s) ++ chunks)))
    else (Raise "embedding service unreachable", s);
  vs_persist s := (Ok tt, s);
  vs_similarity_search query k s :=
    match collection s with
    | Some docs =>
        (Ok (take (Z.to_nat k)
                  (List.filter (λ d, contains query (page_content d)) docs)),
         s)
    | None => (Raise "Collection langchain does not exist.", s)
    end;
  client_collection_count name s :=
    match collection s with
    | Some docs => (Ok (Z.of_nat (length docs)), s)
    | None => (Raise ("Collection " +:+ name +:+ " does not exist."), s)
    end;
  client_reset s :=
    if reset_allowed s then
      (Ok tt, mkMem true (embedding_up s) None)
    else (Raise "Resetting is not allowed by this configuration", s);
}.

Definition doc (text : string) : Document := mkDocument text ∅.

Definition faq : Document := doc "Returns are accepted within 30 days.".
Definition guide : Document := doc "Hold the power button to restart.".

#[local] Instance platform : Platform := {
  os_path_exists p :=
    bool_decide (p ∈ ["kb/faq.txt"; "kb/guide.md"; "kb/blank.txt";
                      "kb/notes.xyz"]);
  loader_load loader :=
    match loader with
    | TextLoader "kb/faq.txt" _ => Ok [faq]
    | TextLoader "kb/blank.txt" _ => Ok []
    | UnstructuredMarkdownLoader "kb/guide.md" => Ok [guide]
    | _ => Raise "No such file or directory"
    end;
  split_documents splitter documents := Ok documents;
  py_hash s := Z.of_nat (String.length s) * 48271 - 100000;
  strftime_at n := "2024-05-01 12:00:00";
}.

(** A model that cannot be reached. *)
Definition unreachable_model : ChatModel := {|
  agent_plan _ _ _ _ := Raise "model unreachable";
|}.

(** A model that searches the knowledge base for the input once and then
    answers with what the tool returned. *)
Definition searching_model : ChatModel := {|
  agent_plan _ _ input steps :=
    match steps with
    | [] => Ok (AgentAction "search_knowledge_base" {["query" := input]})
    | (_, _, observation) :: _ => Ok (AgentFinish observation)
    end;
|}.

Definition kb : KnowledgeBaseManager := KnowledgeBaseManager_init "./db".

Definition empty_store : MemStore := mkMem true true None.
Definition locked_store : MemStore := mkMem false true (Some [faq]).
Definition offline_store : MemStore := mkMem true false None.
Definition stocked_store : MemStore := mkMem true true (Some [faq; guide]).

(** The store behind a client opened with the given settings. *)
Definition opened_with (settings : Settings)
  (chunks : option (list Document)) : MemStore :=
  mkMem (allow_reset settings) true chunks.

(** A splitter that cuts a text into windows of [size] characters, each
    starting [step] characters after the one before. *)
Fixpoint windows (fuel size step : nat) (text : string) : list string :=
  match fuel with
  | O => []
  | S fuel' =>
      if (String.length text <=? size)%nat then [text]
      else String.substring 0 size text
           :: windows fuel' size step
                (String.substring step (String.length text - step) text)
  end.

Definition window_chunks (splitter : TextSplitter) (document : Document)
  : list Document :=
  (λ text, mkDocument text (metadata document))
  <$> windows (String.length (page_content document))
              (Z.to_nat (chunk_size splitter))
              (Z.to_nat (chunk_size splitter - chunk_overlap splitter))
              (page_content document).

(** The platform again, with the window splitter in place of the identity. *)
Definition windowed_platform : Platform := {|
  os_path_exists := @os_path_exists platform;
  loader_load := @loader_load platform;
  split_documents splitter documents :=
    Ok (List.flat_map (window_chunks splitter) documents);
  py_hash := @py_hash platform;
  strftime_at := @strftime_at platform;
|}.

Definition env_of (s : MemStore) : Env MemStore := mkEnv s [] 0.
Definition world_of (s : MemStore) : World MemStore := mkWorld [] (env_of s).

Definition agent_with (model : ChatModel) : CustomerSupportAgent MemStore :=
  @CustomerSupportAgent_init _ _ _ model kb ∅.

End Demo.

(** ** The console front end and the configuration

    [console_app.py] (class [ConsoleInterface]) and [config.py] (class
    [Config]) are the callers of the knowledge base and the agent. *)

(** Python [str] methods used by the console.  Characters are bytes here,
    so these are the Python methods on ASCII text; [is_ascii] marks the text
    on which the statements below are made. *)
Module Str.

Definition is_ascii_char (c : ascii) : bool :=
  (Ascii.N_of_ascii c <? 128)%N.

Fixpoint is_ascii (s : string) : bool :=
  match s with
  | EmptyString => true
  | String c s' => is_ascii_char c && is_ascii s'
  end.

(** [c.isspace()] on ASCII: tab to carriage return, the four separators
    28 to 31, and the space. *)
Definition isspace (c : ascii) : bool :=
  let n := Ascii.N_of_ascii c in
  ((9 <=? n) && (n <=? 13) || (28 <=? n) && (n <=? 32))%N.

Fixpoint lstrip (s : string) : string :=
  match s with
  | EmptyString => EmptyString
  | String c s' => if isspace c then lstrip s' else s
  end.

Fixpoint rstrip (s : string) : string :=
  match s with
  | EmptyString => EmptyString
  | String c s' =>
      match rstrip s' with
      | EmptyString => if isspace c then EmptyString else String c EmptyString
      | String _ _ as r => String c r
      end
  end.

(** [s.strip()] *)
Definition strip (s : string) : string := rstrip (lstrip s).

(** [s.startswith(prefix)] *)
Fixpoint startswith (s prefix : string) : bool :=
  match prefix, s with
  | EmptyString, _ => true
  | String p prefix', String c s' => Ascii.eqb c p && startswith s' prefix'
  | String _ _, EmptyString => false
  end.

(** [s[n:]] *)
Fixpoint drop (n : nat) (s : string) : string :=
  match n, s with
  | O, _ => s
  | S n', String _ s' => drop n' s'
  | S _, EmptyString => EmptyString
  end.

(** [s[:n]] *)
Fixpoint take (n : nat) (s : string) : string :=
  match n, s with
  | S n', String c s' => String c (take n' s')
  | _, _ => EmptyString
  end.

(** [u * n] *)
Fixpoint times (u : string) (n : nat) : string :=
  match n with
  | O => EmptyString
  | S n' => u +:+ times u n'
  end.

(** [bool(s)] for a string: non-empty. *)
Definition truthy (s : string) : bool :=
  match s with EmptyString => false | String _ _ => true end.

(** The double quote character. *)
Definition dq : string := String "034"%char EmptyString.

(** [c in s] *)
Fixpoint has_char (c : ascii) (s : string) : bool :=
  match s with
  | EmptyString => false
  | String a s' => Ascii.eqb a c || has_char c s'
  end.

(** Every character of [s] is the dot. *)
Fixpoint only_dots (s : string) : bool :=
  match s with
  | EmptyString => true
  | String a s' => Ascii.eqb a "."%char && only_dots s'
  end.

End Str.

(** The attributes of class [Config], as they stand once the module is
    imported. *)
Record Config : Type := mkConfig {
  GOOGLE_API_KEY : option string;
  GEMINI_MODEL : string;
  CHROMA_PERSIST_DIRECTORY : string;
  MAX_TOKENS : Z;
  TEMPERATURE : string;
  KNOWLEDGE_BASE_DIR : string;
}.

(** What the start-up asks of the host: creating directories and building
    the two objects.  The constructors called by
    [KnowledgeBaseManager.__init__] open the client and the collection on
    the store, which they may change. *)
Class Host (DB : Type) : Type := {
  (** [os.makedirs(path, exist_ok=True)] *)
  os_makedirs : string → result unit;
  (** the constructors called by [KnowledgeBaseManager.__init__] *)
  open_knowledge_base : string → M DB unit;
  (** the constructors called by [CustomerSupportAgent.__init__] *)
  open_agent : gmap string pyval → result unit;
  (** [str(x)] for a float given by its literal *)
  str_float : string → string;
}.

(** What [input()] gives the main loop: a line, or a [KeyboardInterrupt]
    at the prompt.  The end of the input is [EOFError]. *)
Inductive InputEvent : Type :=
| Line (text : string)
| Interrupt.

Module Console.

(** The [ConsoleInterface] object, what it printed, the directories it had
    created, and the world of the agent and the knowledge base. *)
Record Session (DB : Type) : Type := mkSession {
  knowledge_base : option KnowledgeBaseManager;
  agent : option (CustomerSupportAgent DB);
  running : bool;
  stdout : list string;
  created : list string;
  world : World DB;
}.
Arguments mkSession {DB} _ _ _ _ _ _.
Arguments knowledge_base {DB} _.
Arguments agent {DB} _.
Arguments running {DB} _.
Arguments stdout {DB} _.
Arguments created {DB} _.
Arguments world {DB} _.

Section Console.
Context {DB : Type} `{!VectorStore DB} `{!Platform} `{!ChatModel}
  `{!Host DB}.

(** [ConsoleInterface.__init__] *)
Definition ConsoleInterface_init (w : World DB) : Session DB :=
  mkSession None None false [] [] w.

Definition print (line : string) : M (Session DB) unit :=
  modify (λ s, mkSession (knowledge_base s) (agent s) (running s)
                         (stdout s ++ [line]) (created s) (world s)).

Definition in_world {A} (m : M (World DB) A) : M (Session DB) A :=
  zoom world (λ w s, mkSession (knowledge_base s) (agent s) (running s)
                               (stdout s) (created s) w) m.

Definition in_kb {A} (m : M (Env DB) A) : M (Session DB) A :=
  in_world (in_env m).

Definition set_running (b : bool) : M (Session DB) unit :=
  modify (λ s, mkSession (knowledge_base s) (agent s) b (stdout s)
                         (created s) (world s)).

Definition set_knowledge_base (kb : KnowledgeBaseManager)
  : M (Session DB) unit :=
  modify (λ s, mkSession (Some kb) (agent s) (running s) (stdout s)
                         (created s) (world s)).

Definition set_agent (a : CustomerSupportAgent DB) : M (Session DB) unit :=
  modify (λ s, mkSession (knowledge_base s) (Some a) (running s) (stdout s)
                         (created s) (world s)).

(** *** [Config.validate] and the constructors *)

Definition makedirs (path : string) : M (Session DB) unit :=
  λ s, match os_makedirs path with
       | Ok _ => (Ok tt, mkSession (knowledge_base s) (agent s) (running s)
                                   (stdout s) (created s ++ [path]) (world s))
       | Raise e => (Raise e, s)
       end.

Definition validate (cls : Config) : M (Session DB) bool :=
  if negb (Str.truthy (default "" (GOOGLE_API_KEY cls))) then
    raise "GOOGLE_API_KEY is required. Please set it in your .env file"
  else
    makedirs (CHROMA_PERSIST_DIRECTORY cls);;
    makedirs (KNOWLEDGE_BASE_DIR cls);;
    mret true.

(** [KnowledgeBaseManager(persist_directory)] *)
Definition new_knowledge_base (persist_directory : string)
  : M (Session DB) KnowledgeBaseManager :=
  in_kb (on_store (open_knowledge_base persist_directory));;
  mret (KnowledgeBaseManager_init persist_directory).

(** [CustomerSupportAgent(knowledge_base, config)]: the agent starts with
    an empty [ConversationBufferMemory]. *)
Definition new_agent (kb : KnowledgeBaseManager) (config : gmap string pyval)
  : M (Session DB) (CustomerSupportAgent DB) :=
  λ s, match open_agent config with
       | Ok _ =>
           (Ok (CustomerSupportAgent_init kb config),
            mkSession (knowledge_base s) (agent s) (running s) (stdout s)
                      (created s) (mkWorld [] (env (world s))))
       | Raise e => (Raise e, s)
       end.

Definition config_dict (cls : Config) : gmap string pyval :=
  <["GOOGLE_API_KEY" := from_option PStr PNone (GOOGLE_API_KEY cls)]>
  (<["GEMINI_MODEL" := PStr (GEMINI_MODEL cls)]>
  (<["TEMPERATURE" := PFloat (TEMPERATURE cls)]>
  (<["MAX_TOKENS" := PInt (MAX_TOKENS cls)]> ∅))).

Definition initialize_system (cls : Config) : M (Session DB) bool :=
  try_except
    (print "🚀 Initializing AI Customer Support System...";;
     validate cls;;
     print "✅ Configuration validated";;
     print "📚 Initializing knowledge base...";;
     kb ← new_knowledge_base (CHROMA_PERSIST_DIRECTORY cls);
     set_knowledge_base kb;;
     print "✅ Knowledge base initialized";;
     print "🤖 Initializing AI agent...";;
     a ← new_agent kb (config_dict cls);
     set_agent a;;
     print "✅ AI agent initialized";;
     print (Py.nl +:+ "🎉 System ready! "
            +:+ "Type 'help' for available commands.");;
     mret true)
    (λ e,
     print ("❌ Error initializing system: " +:+ e);;
     mret false).

(** *** The commands *)

Definition help_text : string :=
  Py.nl
  +:+ "🤖 AI Customer Support Agent - Available Commands:" +:+ Py.nl
  +:+ Py.nl
  +:+ "📝 Chat Commands:" +:+ Py.nl
  +:+ "  - Just type your message to chat with the AI agent" +:+ Py.nl
  +:+ "  - Type 'quit' or 'exit' to close the application" +:+ Py.nl
  +:+ "  - Type 'clear' to clear conversation history" +:+ Py.nl
  +:+ "  - Type 'history' to view conversation history" +:+ Py.nl
  +:+ Py.nl
  +:+ "📚 Knowledge Base Commands:" +:+ Py.nl
  +:+ "  - 'upload <file_path>' - Upload document to knowledge base" +:+ Py.nl
  +:+ "  - 'search <query>' - Search knowledge base" +:+ Py.nl
  +:+ "  - 'kb_info' - Show knowledge base information" +:+ Py.nl
  +:+ "  - 'clear_kb' - Clear knowledge base" +:+ Py.nl
  +:+ Py.nl
  +:+ "🎛️ System Commands:" +:+ Py.nl
  +:+ "  - 'status' - Show system status" +:+ Py.nl
  +:+ "  - 'help' - Show this help message" +:+ Py.nl
  +:+ "  - 'quit' or 'exit' - Exit application" +:+ Py.nl
  +:+ Py.nl
  +:+ "💡 Example Usage:" +:+ Py.nl
  +:+ "  - " +:+ Str.dq +:+ "I have a problem with my account" +:+ Str.dq
  +:+ Py.nl
  +:+ "  - " +:+ Str.dq +:+ "How do I reset my password?" +:+ Str.dq +:+ Py.nl
  +:+ "  - " +:+ Str.dq +:+ "upload ./documents/faq.txt" +:+ Str.dq +:+ Py.nl
  +:+ "  - " +:+ Str.dq +:+ "search password reset" +:+ Str.dq +:+ Py.nl
  +:+ "        ".

Definition display_help : M (Session DB) unit := print help_text.

(** [str(v)], the [{v}] of an f-string. *)
Definition str (v : pyval) : string :=
  match v with
  | PNone => "None"
  | PStr s => s
  | PInt z => Py.str_int z
  | PFloat literal => str_float literal
  end.

(** [d[key]]: a missing key raises [KeyError]. *)
Definition getitem (d : gmap string pyval) (key : string)
  : M (Session DB) pyval :=
  match d !! key with
  | Some v => mret v
  | None => raise ("'" +:+ key +:+ "'")
  end.

(** [self.knowledge_base.method(...)]: on [None] the attribute access
    raises [AttributeError]. *)
Definition knowledge_base_attr (method : string)
  : M (Session DB) KnowledgeBaseManager :=
  s ← gets knowledge_base;
  match s with
  | Some kb => mret kb
  | None => raise ("'NoneType' object has no attribute '" +:+ method +:+ "'")
  end.

Definition rule : string := Str.times "=" 50.
Definition dashes : string := Str.times "-" 50.

Definition display_status : M (Session DB) unit :=
  self_agent ← gets agent;
  match self_agent with
  | None => print "❌ System not initialized"
  | Some a =>
      print (Py.nl +:+ "📊 System Status:");;
      print rule;;
      agent_status ← in_world (get_agent_status a);
      print "🤖 AI Agent:";;
      v ← getitem agent_status "model";
      print ("   Model: " +:+ str v);;
      v ← getitem agent_status "temperature";
      print ("   Temperature: " +:+ str v);;
      v ← getitem agent_status "max_tokens";
      print ("   Max Tokens: " +:+ str v);;
      v ← getitem agent_status "memory_length";
      print ("   Memory Length: " +:+ str v);;
      v ← getitem agent_status "tools_available";
      print ("   Tools Available: " +:+ str v);;
      kb ← knowledge_base_attr "get_collection_info";
      kb_info ← in_kb (get_collection_info kb);
      print (Py.nl +:+ "📚 Knowledge Base:");;
      v ← getitem kb_info "total_documents";
      print ("   Total Documents: " +:+ str v);;
      v ← getitem kb_info "persist_directory";
      print ("   Storage: " +:+ str v);;
      print rule
  end.

Definition upload_document (file_path : string) : M (Session DB) unit :=
  self_kb ← gets knowledge_base;
  match self_kb with
  | None => print "❌ Knowledge base not initialized"
  | Some kb =>
      if negb (os_path_exists file_path) then
        print ("❌ File not found: " +:+ file_path)
      else
        print ("📤 Uploading " +:+ file_path +:+ " to knowledge base...");;
        success ← in_kb (add_documents kb [file_path]);
        if success : bool then print "✅ Document uploaded successfully!"
        else print "❌ Failed to upload document"
  end.

(** The [for i, result in enumerate(results, 1)] loop of
    [search_knowledge_base]. *)
Fixpoint print_results (i : Z) (results : list string) : M (Session DB) unit :=
  match results with
  | [] => mret tt
  | result :: rest =>
      print (Py.str_int i +:+ ". " +:+ Str.take 200 result +:+ "...");;
      print dashes;;
      print_results (i + 1) rest
  end.

Definition search_knowledge_base (query : string) : M (Session DB) unit :=
  self_kb ← gets knowledge_base;
  match self_kb with
  | None => print "❌ Knowledge base not initialized"
  | Some kb =>
      print ("🔍 Searching for: " +:+ query);;
      results ← in_kb (search kb query 2);
      if Py.truthy results then
        print (Py.nl +:+ "📖 Found "
               +:+ Py.str_int (Z.of_nat (length results))
               +:+ " relevant results:");;
        print dashes;;
        print_results 1 results
      else print "❌ No relevant results found"
  end.

Definition clear_conversation : M (Session DB) unit :=
  self_agent ← gets agent;
  match self_agent with
  | None => print "❌ Agent not initialized"
  | Some a =>
      in_world (clear_memory a);;
      print "✅ Conversation history cleared"
  end.

(** The [for i, message in enumerate(messages, 1)] loop of
    [show_history]. *)
Fixpoint print_messages (i : Z) (messages : list BaseMessage)
  : M (Session DB) unit :=
  match messages with
  | [] => mret tt
  | message :: rest =>
      let '(role, content) :=
        match message with
        | HumanMessage content => ("👤 You", content)
        | AIMessage content => ("🤖 AI", content)
        end in
      print (Py.str_int i +:+ ". " +:+ role +:+ ": " +:+ content);;
      print dashes;;
      print_messages (i + 1) rest
  end.

Definition show_history : M (Session DB) unit :=
  self_agent ← gets agent;
  match self_agent with
  | None => print "❌ Agent not initialized"
  | Some a =>
      messages ← in_world (get_conversation_history a);
      if negb (Py.truthy messages) then print "📝 No conversation history"
      else
        print (Py.nl +:+ "📝 Conversation History:");;
        print rule;;
        print_messages 1 messages
  end.

(** [command.strip().lower()] *)
Definition normalize (command : string) : string :=
  Py.lower (Str.strip command).

Definition process_command (command : string) : M (Session DB) unit :=
  let command := normalize command in
  if bool_decide (command ∈ ["quit"; "exit"]) then
    print "👋 Goodbye! Have a great day!";;
    set_running false
  else if String.eqb command "help" then display_help
  else if String.eqb command "status" then display_status
  else if String.eqb command "clear" then clear_conversation
  else if String.eqb command "history" then show_history
  else if String.eqb command "kb_info" then
    self_kb ← gets knowledge_base;
    match self_kb with
    | Some kb =>
        kb_info ← in_kb (get_collection_info kb);
        v ← getitem kb_info "total_documents";
        print ("📚 Knowledge Base: " +:+ str v +:+ " documents")
    | None => print "❌ Knowledge base not initialized"
    end
  else if String.eqb command "clear_kb" then
    self_kb ← gets knowledge_base;
    match self_kb with
    | Some kb =>
        cleared ← in_kb (clear_knowledge_base kb);
        if cleared : bool then print "✅ Knowledge base cleared"
        else print "❌ Failed to clear knowledge base"
    | None => print "❌ Knowledge base not initialized"
    end
  else if Str.startswith command "upload " then
    let file_path := Str.strip (Str.drop 7 command) in
    upload_document file_path
  else if Str.startswith command "search " then
    let query := Str.strip (Str.drop 7 command) in
    search_knowledge_base query
  else if Str.truthy command then
    self_agent ← gets agent;
    match self_agent with
    | None => print "❌ AI agent not initialized"
    | Some a =>
        print (Py.nl +:+ "🤖 AI Agent is thinking...");;
        try_except
          (response ← in_world (process_message a command);
           print (Py.nl +:+ "🤖 AI Agent: " +:+ response))
          (λ e, print ("❌ Error: " +:+ e))
    end
  else mret tt.

Definition goodbye : string :=
  Py.nl +:+ Py.nl +:+ "👋 Goodbye! Have a great day!".

(** The [while self.running] loop of [run], over what [input()] gives.
    The prompt [input] writes is recorded with the printed lines. *)
Fixpoint main_loop (inputs : list InputEvent) : M (Session DB) unit :=
  self_running ← gets running;
  if self_running : bool then
    print (Py.nl +:+ "💬 You: ");;
    match inputs with
    | [] => print goodbye
    | Interrupt :: _ => print goodbye
    | Line text :: rest =>
        let user_input := Str.strip text in
        (if Str.truthy user_input then process_command user_input
         else mret tt);;
        main_loop rest
    end
  else mret tt.

Definition run (cls : Config) (inputs : list InputEvent)
  : M (Session DB) unit :=
  print "🤖 Welcome to AI Customer Support Agent!";;
  print rule;;
  initialized ← initialize_system cls;
  if negb initialized then mret tt
  else
    set_running true;;
    main_loop inputs.

End Console.
End Console.

(** Two views of a session used in the statements about the console. *)
Section ConsoleViews.
Context {DB : Type}.

(** The interface still holds the same objects and has created no further
    directory; it may have printed. *)
Definition same_objects (s s' : Console.Session DB) : Prop :=
  Console.knowledge_base s' = Console.knowledge_base s
  ∧ Console.agent s' = Console.agent s
  ∧ Console.created s' = Console.created s
  ∧ ∃ lines, Console.stdout s' = Console.stdout s ++ lines.

(** An interface that has an agent has a knowledge base, as
    [initialize_system] leaves it. *)
Definition well_formed (s : Console.Session DB) : Prop :=
  is_Some (Console.agent s) → is_Some (Console.knowledge_base s).

(** A command that returns, keeps the objects and the running flag. *)
Definition plain (m : M (Console.Session DB) unit) (s : Console.Session DB)
  : Prop :=
  ∃ s', m s = (Ok tt, s') ∧ same_objects s s'
        ∧ Console.running s' = Console.running s.

(** The words and prefixes [process_command] acts on itself. *)
Definition is_chat (command : string) : bool :=
  negb (bool_decide (command ∈ ["quit"; "exit"; "help"; "status"; "clear";
                                "history"; "kb_info"; "clear_kb"]))
  && negb (Str.startswith command "upload ")
  && negb (Str.startswith command "search ")
  && Str.truthy command.

End ConsoleViews.

(** A host for the demo installation, and two configurations. *)
Module DemoConsole.

#[local] Instance host : Host Demo.MemStore := {
  os_makedirs path := Ok tt;
  open_knowledge_base directory s :=
    (Ok tt, Demo.mkMem (Demo.reset_allowed s) (Demo.embedding_up s)
                       (Some (default [] (Demo.collection s))));
  open_agent config := Ok tt;
  str_float literal := literal;
}.

Definition config : Config :=
  mkConfig (Some "secret") "gemini-1.5-flash" "./data/chroma_db" 4000 "0.7"
           "./data/knowledge_base".

Definition config_without_key : Config :=
  mkConfig None "gemini-1.5-flash" "./data/chroma_db" 4000 "0.7"
           "./data/knowledge_base".

(** A session after a successful start on the stocked store. *)
Definition started (model : ChatModel) : Console.Session Demo.MemStore :=
  Console.mkSession (Some Demo.kb) (Some (Demo.agent_with model)) true [] []
            (Demo.world_of Demo.stocked_store).

End DemoConsole.

(** * Properties *)

(** Unfolds the monad and the bookkeeping operations, leaving the calls to
    the platform and the store. *)
Ltac run_py :=
  unfold logger_info, logger_warning, logger_error, on_store, lift_result in *;
  unfold emit, zoom, modify, gets, try_except, mbind, M_bind, mret, M_ret in *;
  unfold bind, ret, raise in *;
  simpl in *.

(** ** Loading and chunking *)

Section Loading.
Context {DB : Type} `{!Platform}.
Implicit Types (w : Env DB) (self : KnowledgeBaseManager).

Lemma only_logged_refl w : only_logged w w.
Proof. repeat split. exists []. by rewrite app_nil_r. Qed.

Lemma only_logged_trans w1 w2 w3 :
  only_logged w1 w2 → only_logged w2 w3 → only_logged w1 w3.
Proof.
  intros (Hs & Hi & l & Hl) (Hs' & Hi' & l' & Hl').
  repeat split; [congruence | congruence |].
  exists (l ++ l'). by rewrite Hl', Hl, app_assoc.
Qed.

Lemma only_logged_emit w lvl msg :
  only_logged w (mkEnv (store w) (log w ++ [mkLog lvl msg]) (instant w)).
Proof. repeat split. by eexists. Qed.

Lemma only_logged_elem w w' r :
  only_logged w w' → r ∈ log w → r ∈ log w'.
Proof.
  intros (_ & _ & l & ->) Hr. apply elem_of_app. by left.
Qed.

(** [load_document] returns the documents of the path and only logs. *)
Lemma load_document_eval self file_path w :
  ∃ w', load_document self file_path w = (Ok (documents_of file_path), w')
        ∧ only_logged w w'.
Proof.
  unfold load_document, documents_of.
  destruct (select_loader _ _) as [loader|]; run_py.
  - destruct (loader_load loader) as [documents|e]; simpl;
      eexists; (split; [reflexivity | apply only_logged_emit]).
  - eexists; (split; [reflexivity | apply only_logged_emit]).
Qed.

(** [process_documents] returns the chunks of the documents and only
    logs. *)
Lemma process_documents_eval self documents w :
  ∃ w', process_documents self documents w
          = (Ok (chunks_of (text_splitter self) documents), w')
        ∧ only_logged w w'.
Proof.
  unfold process_documents, chunks_of; run_py.
  destruct (split_documents _ _) as [chunks|e]; simpl;
    eexists; (split; [reflexivity | apply only_logged_emit]).
Qed.

(** The loop of [add_documents] extends [all_chunks] by the chunks of the
    batch; it never raises and only logs, one warning per missing path. *)
Lemma gather_chunks_eval self file_paths : ∀ all_chunks w,
  ∃ w', gather_chunks self file_paths all_chunks w
          = (Ok (all_chunks ++ batch_chunks self file_paths), w')
        ∧ only_logged w w'
        ∧ Forall (λ p, not_found p ∈ log w') (missing_paths file_paths).
Proof.
  induction file_paths as [|file_path rest IH]; intros all_chunks w.
  - exists w. simpl. rewrite app_nil_r.
    split; [reflexivity | split; [apply only_logged_refl | constructor]].
  - cbn [gather_chunks batch_chunks List.flat_map missing_paths List.filter].
    unfold file_chunks at 1.
    destruct (os_path_exists file_path) eqn:Hex; cbn [negb].
    + destruct (load_document_eval self file_path w) as (w1 & Hload & Hw1).
      unfold mbind, M_bind, bind at 1. rewrite Hload.
      destruct (Py.truthy (documents_of file_path)) eqn:Hdocs.
      * destruct (process_documents_eval self (documents_of file_path) w1)
          as (w2 & Hproc & Hw2).
        unfold bind at 1. rewrite Hproc.
        destruct (IH (all_chunks ++ chunks_of (text_splitter self)
                                              (documents_of file_path)) w2)
          as (w3 & Hrest & Hw3 & Hwarn).
        exists w3. rewrite Hrest, <- app_assoc.
        split; [reflexivity | split; [|exact Hwarn]].
        eauto using only_logged_trans.
      * destruct (IH all_chunks w1) as (w3 & Hrest & Hw3 & Hwarn).
        exists w3. rewrite Hrest. simpl.
        split; [reflexivity | split; [|exact Hwarn]].
        eauto using only_logged_trans.
    + unfold mbind, M_bind, bind at 1; run_py.
      destruct (IH all_chunks
                  (mkEnv (store w) (log w ++ [not_found file_path])
                         (instant w)))
        as (w3 & Hrest & Hw3 & Hwarn).
      exists w3. unfold not_found in *. rewrite Hrest.
      split; [reflexivity | split].
      * eapply only_logged_trans; [apply only_logged_emit | exact Hw3].
      * constructor; [|exact Hwarn].
        eapply only_logged_elem; [exact Hw3|].
        simpl. apply elem_of_app. right. apply list_elem_of_singleton.
        reflexivity.
Qed.

(** C10. [load_document] and [process_documents] are total: on every input
    and in every world each returns a list and never raises, the empty
    list when the extension is unsupported, the loader fails or the
    splitter fails; hence the loop of [add_documents] over the files of a
    batch never raises either. *)
Theorem load_and_process_never_raise self file_path documents file_paths w :
  (∃ loaded w', load_document self file_path w = (Ok loaded, w')
     ∧ match select_loader (file_extension_of file_path) file_path with
       | Some loader =>
           match loader_load loader with
           | Ok from_loader => loaded = from_loader
           | Raise _ => loaded = []
           end
       | None => loaded = []
       end)
  ∧ (∃ chunks w', process_documents self documents w = (Ok chunks, w')
       ∧ match split_documents (text_splitter self) documents with
         | Ok from_splitter => chunks = from_splitter
         | Raise _ => chunks = []
         end)
  ∧ (∃ all_chunks w', gather_chunks self file_paths [] w
                        = (Ok all_chunks, w')).
Proof.
  split; [|split].
  - destruct (load_document_eval self file_path w) as (w' & Heq & _).
    exists (documents_of file_path), w'. split; [exact Heq|].
    unfold documents_of.
    destruct (select_loader _ _); [|reflexivity].
    destruct (loader_load _); reflexivity.
  - destruct (process_documents_eval self documents w) as (w' & Heq & _).
    exists (chunks_of (text_splitter self) documents), w'.
    split; [exact Heq|].
    unfold chunks_of. destruct (split_documents _ _); reflexivity.
  - destruct (gather_chunks_eval self file_paths [] w) as (w' & Heq & _).
    eauto.
Qed.

End Loading.

(** ** Ingestion *)

Section Ingestion.
Context {DB : Type} `{!VectorStore DB} `{!Platform}.
Implicit Types (w : Env DB) (self : KnowledgeBaseManager).

Lemma select_loader_unsupported file_extension file_path :
  file_extension ∉ supported_extensions →
  select_loader file_extension file_path = None.
Proof.
  unfold supported_extensions, select_loader. intros Hext.
  destruct (String.eqb_spec file_extension ".txt") as [->|_];
    [exfalso; apply Hext; set_solver|].
  destruct (String.eqb_spec file_extension ".pdf") as [->|_];
    [exfalso; apply Hext; set_solver|].
  destruct (String.eqb_spec file_extension ".csv") as [->|_];
    [exfalso; apply Hext; set_solver|].
  destruct (String.eqb_spec file_extension ".md") as [->|_];
    [exfalso; apply Hext; set_solver|].
  reflexivity.
Qed.

Lemma file_chunks_unsupported self file_path :
  file_extension_of file_path ∉ supported_extensions →
  file_chunks self file_path = [].
Proof.
  intros Hext. unfold file_chunks, documents_of.
  rewrite (select_loader_unsupported _ _ Hext).
  by destruct (os_path_exists file_path).
Qed.

Lemma batch_chunks_app self l1 l2 :
  batch_chunks self (l1 ++ l2) = batch_chunks self l1 ++ batch_chunks self l2.
Proof. unfold batch_chunks. apply List.flat_map_app. Qed.

Lemma batch_chunks_existing self file_paths :
  batch_chunks self file_paths
  = batch_chunks self (List.filter os_path_exists file_paths).
Proof.
  induction file_paths as [|p rest IH]; [reflexivity|].
  simpl. destruct (os_path_exists p) eqn:Hex; simpl.
  - by rewrite IH.
  - unfold file_chunks at 1. by rewrite Hex.
Qed.

(** [add_documents] never raises.  Its verdict and the store it leaves are
    fixed by the chunks of the batch and the store it started from. *)
Lemma add_documents_eval self file_paths w :
  let chunks := batch_chunks self file_paths in
  ∃ w', add_documents self file_paths w
          = (Ok (Py.truthy chunks && stored chunks (store w)), w')
        ∧ store w' = (if Py.truthy chunks
                      then snd (write_chunks chunks (store w))
                      else store w)
        ∧ Forall (λ p, not_found p ∈ log w') (missing_paths file_paths).
Proof.
  intros chunks. unfold add_documents, try_except.
  destruct (gather_chunks_eval self file_paths [] w)
    as (w1 & Hgather & (Hstore & _ & l & Hlog) & Hwarn).
  unfold mbind, M_bind, bind at 1. rewrite Hgather. cbv beta iota.
  simpl app. fold chunks. unfold stored, write_chunks.
  assert (Hkeep : ∀ w2 : Env DB, (∃ l', log w2 = log w1 ++ l') →
            Forall (λ p, not_found p ∈ log w2) (missing_paths file_paths)).
  { intros w2 [l' Hl']. eapply Forall_impl; [exact Hwarn|].
    intros p Hp. simpl in Hp. rewrite Hl'. apply elem_of_app. by left. }
  destruct (Py.truthy chunks) eqn:Hchunks; run_py; rewrite ?Hchunks.
  - rewrite Hstore.
    destruct (vs_add_documents chunks (store w)) as [[[]|e] s1]; simpl.
    + destruct (vs_persist s1) as [[[]|e] s2]; simpl;
        (eexists; split; [reflexivity | split; [reflexivity|]]);
        apply Hkeep; simpl; by eexists.
    + (eexists; split; [reflexivity | split; [reflexivity|]]).
      apply Hkeep; simpl; by eexists.
  - exists w1. split; [reflexivity | split; [exact Hstore | exact Hwarn]].
Qed.

(** [add_documents] step by step: the world the loop leaves, then the one
    write and the record logged for its outcome. *)
Lemma add_documents_run self file_paths w :
  let chunks := batch_chunks self file_paths in
  ∃ w1, gather_chunks self file_paths [] w = (Ok chunks, w1)
        ∧ only_logged w w1
        ∧ add_documents self file_paths w
          = (if Py.truthy chunks then
               match write_chunks chunks (store w) with
               | (Ok _, s') =>
                   (Ok true,
                    mkEnv s' (log w1 ++ [mkLog INFO
                                ("Successfully added "
                                 +:+ Py.str_int (Z.of_nat (length chunks))
                                 +:+ " chunks to knowledge base")])
                          (instant w1))
               | (Raise e, s') =>
                   (Ok false,
                    mkEnv s' (log w1 ++ [mkLog ERROR
                                ("Error adding documents: " +:+ e)])
                          (instant w1))
               end
             else (Ok false, w1)).
Proof.
  intros chunks.
  destruct (gather_chunks_eval self file_paths [] w)
    as (w1 & Hgather & Hw1 & _).
  simpl app in Hgather. fold chunks in Hgather.
  exists w1. split; [exact Hgather|]. split; [exact Hw1|].
  destruct Hw1 as (Hstore & _ & _).
  unfold add_documents, try_except.
  unfold mbind, M_bind, bind at 1. rewrite Hgather. cbv beta iota.
  unfold write_chunks.
  destruct (Py.truthy chunks) eqn:Hchunks; run_py; rewrite ?Hchunks;
    [|reflexivity].
  rewrite Hstore.
  destruct (vs_add_documents chunks (store w)) as [[[]|e] s1]; simpl;
    [|reflexivity].
  by destruct (vs_persist s1) as [[[]|e] s2].
Qed.

(** What one path contributes to a batch is what [load_document] and then
    [process_documents] return for it, in whatever worlds they run. *)
Lemma file_chunks_from_code self file_path w1 w2 :
  file_chunks self file_path
  = (if os_path_exists file_path then
       match fst (load_document self file_path w1) with
       | Ok documents =>
           if Py.truthy documents then
             match fst (process_documents self documents w2) with
             | Ok chunks => chunks
             | Raise _ => []
             end
           else []
       | Raise _ => []
       end
     else []).
Proof.
  unfold file_chunks.
  destruct (os_path_exists file_path); [|reflexivity].
  destruct (load_document_eval self file_path w1) as (w1' & -> & _).
  cbn [fst].
  destruct (Py.truthy (documents_of file_path)); [|reflexivity].
  by destruct (process_documents_eval self (documents_of file_path) w2)
    as (w2' & -> & _).
Qed.

(** C2, as the code has it.  [add_documents] never raises; it returns
    [True] exactly when the loop over the batch accumulated at least one
    chunk and writing the chunks to the store and persisting raised no
    error.  The chunks the loop accumulates are those of the existing paths
    of the batch; every missing path has its warning in the log.  With
    chunks at hand the store is written once and the last log record tells
    the outcome: the success message with the number of chunks, or the
    error the write raised; without chunks the store is left alone and
    nothing is logged after the loop.  The empty batch returns [False] and
    changes nothing. *)
Theorem add_documents_verdict self file_paths w :
  let chunks := batch_chunks self file_paths in
  ∃ w', add_documents self file_paths w
          = (Ok (Py.truthy chunks && stored chunks (store w)), w')
        ∧ fst (gather_chunks self file_paths [] w) = Ok chunks
        ∧ chunks = batch_chunks self (List.filter os_path_exists file_paths)
        ∧ Forall (λ p, mkLog WARNING ("File not found: " +:+ p) ∈ log w')
                 (missing_paths file_paths)
        ∧ last (log w')
          = (if Py.truthy chunks then
               match fst (write_chunks chunks (store w)) with
               | Ok _ =>
                   Some (mkLog INFO
                           ("Successfully added "
                            +:+ Py.str_int (Z.of_nat (length chunks))
                            +:+ " chunks to knowledge base"))
               | Raise e =>
                   Some (mkLog ERROR ("Error adding documents: " +:+ e))
               end
             else last (log (snd (gather_chunks self file_paths [] w))))
        ∧ store w' = (if Py.truthy chunks
                      then snd (write_chunks chunks (store w))
                      else store w)
        ∧ add_documents self [] w = (Ok false, w).
Proof.
  intros chunks.
  destruct (add_documents_eval self file_paths w)
    as (w' & Heq & Hstore & Hwarn).
  destruct (add_documents_run self file_paths w) as (w1 & Hgather & _ & Hrun).
  fold chunks in Heq, Hstore, Hgather, Hrun.
  exists w'. split; [exact Heq|].
  split; [by rewrite Hgather|].
  split; [apply batch_chunks_existing|].
  split; [exact Hwarn|].
  split; [|split; [exact Hstore | reflexivity]].
  rewrite Heq in Hrun. rewrite Hgather. cbn [snd].
  destruct (Py.truthy chunks).
  - destruct (write_chunks chunks (store w)) as [[[]|e] s'];
      apply (f_equal snd) in Hrun; cbn [snd] in Hrun; subst w';
      cbn [fst log]; apply last_snoc.
  - apply (f_equal snd) in Hrun. cbn [snd] in Hrun. by subst w'.
Qed.

(** C7. A file whose lower-cased extension is none of [.txt], [.pdf],
    [.csv], [.md] is an error for that file alone: [load_document] logs the
    error and returns no document for it.  The batch goes on: the loop of
    [add_documents] accumulates the chunks of all the other files, in their
    order, each file contributing what [load_document] and then
    [process_documents] return for it; these chunks are what
    [add_documents] writes to the store, and its verdict is whether there
    were any and the write went through.  So verdict and store are those of
    the batch without the file. *)
Theorem unsupported_file_skipped self before after bad other w w1 w2 :
  file_extension_of bad ∉ supported_extensions →
  let chunks := List.flat_map (file_chunks self) (before ++ after) in
  let run := add_documents self (before ++ bad :: after) w in
  fst (load_document self bad w) = Ok []
  ∧ mkLog ERROR ("Error loading document " +:+ bad
                 +:+ ": Unsupported file type: " +:+ file_extension_of bad)
    ∈ log (snd (load_document self bad w))
  ∧ fst (gather_chunks self (before ++ bad :: after) [] w) = Ok chunks
  ∧ file_chunks self other
    = (if os_path_exists other then
         match fst (load_document self other w1) with
         | Ok documents =>
             if Py.truthy documents then
               match fst (process_documents self documents w2) with
               | Ok pieces => pieces
               | Raise _ => []
               end
             else []
         | Raise _ => []
         end
       else [])
  ∧ fst run = Ok (Py.truthy chunks && stored chunks (store w))
  ∧ store (snd run) = (if Py.truthy chunks
                       then snd (write_chunks chunks (store w))
                       else store w)
  ∧ fst run = fst (add_documents self (before ++ after) w)
  ∧ store (snd run) = store (snd (add_documents self (before ++ after) w)).
Proof.
  intros Hext chunks run. subst run.
  assert (Hsame : batch_chunks self (before ++ bad :: after) = chunks).
  { change chunks with (batch_chunks self (before ++ after)).
    rewrite !batch_chunks_app. f_equal.
    change (bad :: after) with ([bad] ++ after).
    rewrite batch_chunks_app. unfold batch_chunks at 1. simpl.
    by rewrite (file_chunks_unsupported _ _ Hext). }
  split; [|split; [|split; [|split; [apply file_chunks_from_code|]]]].
  - destruct (load_document_eval self bad w) as (w' & -> & _). simpl.
    unfold documents_of. by rewrite (select_loader_unsupported _ _ Hext).
  - unfold load_document.
    rewrite (select_loader_unsupported _ _ Hext); run_py.
    apply elem_of_app. right. apply list_elem_of_here.
  - destruct (gather_chunks_eval self (before ++ bad :: after) [] w)
      as (w' & -> & _).
    simpl. by rewrite Hsame.
  - destruct (add_documents_eval self (before ++ bad :: after) w)
      as (wa & -> & Hs1 & _).
    destruct (add_documents_eval self (before ++ after) w)
      as (wb & -> & Hs2 & _).
    cbn [fst snd]. rewrite Hs1, Hs2, Hsame.
    repeat split; reflexivity.
Qed.

(** C8. Chunking is deterministic.  Every manager splits with window 500
    and overlap 100 and hands the splitter nothing but the documents: in
    any world, and whatever directory the manager was built with,
    [process_documents] returns the chunks the splitter of that
    configuration gives for the documents, or no chunk when it raises.  So
    any two runs on the same documents return the same chunks, in
    particular when the second run starts in the world the first one
    left. *)
Theorem chunking_deterministic dir1 dir2 documents w1 w2 :
  let chunks := match split_documents (mkSplitter 500 100) documents with
                | Ok from_splitter => from_splitter
                | Raise _ => []
                end in
  let first := process_documents (KnowledgeBaseManager_init dir1)
                 documents w1 in
  let second := process_documents (KnowledgeBaseManager_init dir2)
                  documents w2 in
  let again := process_documents (KnowledgeBaseManager_init dir1)
                 documents (snd first) in
  fst first = Ok chunks
  ∧ fst second = Ok chunks
  ∧ fst again = Ok chunks
  ∧ fst first = fst second
  ∧ fst again = fst first
  ∧ text_splitter (KnowledgeBaseManager_init dir1) = mkSplitter 500 100.
Proof.
  intros chunks first second again. subst first second again.
  assert (Hrun : ∀ dir w,
    fst (process_documents (KnowledgeBaseManager_init dir) documents w)
    = Ok chunks).
  { intros dir w.
    by destruct (process_documents_eval (KnowledgeBaseManager_init dir)
                   documents w) as (w' & -> & _). }
  rewrite !Hrun. repeat split; reflexivity.
Qed.

End Ingestion.

(** ** Retrieval and reset *)

Section Retrieval.
Context {DB : Type} `{!VectorStore DB}.
Implicit Types (w : Env DB) (self : KnowledgeBaseManager).

(** [search] in terms of the store's answer: the texts of the documents
    found, in their order, or nothing and an error record. *)
Lemma search_eval self query k w :
  search self query k w
  = match vs_similarity_search query k (store w) with
    | (Ok docs, s') =>
        (Ok (page_content <$> docs), mkEnv s' (log w) (instant w))
    | (Raise e, s') =>
        (Ok [], mkEnv s' (log w ++ [mkLog ERROR
                   ("Error searching knowledge base: " +:+ e)]) (instant w))
    end.
Proof.
  unfold search; run_py.
  by destruct (vs_similarity_search query k (store w)) as [[docs|e] s'].
Qed.

(** C3. For a positive [k] and a store that answers a query for [k]
    results with at most [k] documents, [search] returns the texts of those
    documents in the store's order, at most [k] of them; when the store
    raises, it returns the empty list.  It never raises. *)
Theorem search_bounded_or_empty self query k w :
  0 < k →
  (∀ docs s', vs_similarity_search query k (store w) = (Ok docs, s') →
              Z.of_nat (length docs) ≤ k) →
  ∃ texts w', search self query k w = (Ok texts, w')
    ∧ Z.of_nat (length texts) ≤ k
    ∧ match fst (vs_similarity_search query k (store w)) with
      | Ok docs => texts = page_content <$> docs
      | Raise _ => texts = []
      end.
Proof.
  intros Hk Hstore. rewrite search_eval.
  destruct (vs_similarity_search query k (store w)) as [[docs|e] s'] eqn:Hs.
  - eexists _, _. split; [reflexivity|]. simpl.
    split; [|reflexivity]. rewrite length_fmap. eauto.
  - eexists _, _. split; [reflexivity|]. simpl. split; [lia | reflexivity].
Qed.

(** [clear_knowledge_base] in terms of the client's answer to the reset:
    [True] and the success record when it goes through, [False] and the
    error record when the client raises.  It never raises itself, and the
    store is left as the client's reset left it. *)
Lemma clear_knowledge_base_eval self w :
  clear_knowledge_base self w
  = match client_reset (store w) with
    | (Ok _, s') =>
        (Ok true,
         mkEnv s' (log w ++ [mkLog INFO "Knowledge base cleared successfully"])
               (instant w))
    | (Raise e, s') =>
        (Ok false,
         mkEnv s' (log w ++ [mkLog ERROR
                    ("Error clearing knowledge base: " +:+ e)]) (instant w))
    end.
Proof.
  unfold clear_knowledge_base; run_py.
  by destruct (client_reset (store w)) as [[[]|e] s'].
Qed.

End Retrieval.

(** ** The tools and the conversation *)

Section Conversation.
Context {DB : Type} `{!VectorStore DB} `{!Platform}.
Implicit Types (w : World DB) (self : CustomerSupportAgent DB).

(** [process_message] in terms of what the executor does once the user
    message is in the memory. *)
Lemma process_message_eval self user_message w :
  process_message self user_message w
  = match agent_executor self user_message
            (mkWorld (chat_memory w ++ [HumanMessage user_message]) (env w))
    with
    | (Ok response, w2) =>
        let ai_response :=
          default "I apologize, but I couldn't process your request."
                  (response !! "output") in
        (Ok ai_response,
         mkWorld (chat_memory w2 ++ [AIMessage ai_response]) (env w2))
    | (Raise e, w2) =>
        (Ok (error_response_of e),
         mkWorld (chat_memory w2 ++ [AIMessage (error_response_of e)])
                 (mkEnv (store (env w2))
                        (log (env w2)
                         ++ [mkLog ERROR ("Error processing message: " +:+ e)])
                        (instant (env w2))))
    end.
Proof.
  unfold process_message, add_user_message, add_ai_message, in_env; run_py.
  by destruct (agent_executor self user_message _) as [[response|e] w2].
Qed.

(** Whatever the executor does, a turn returns a string, and that string
    is the last message of the history. *)
Lemma process_message_total self user_message w :
  ∃ answer w', process_message self user_message w = (Ok answer, w')
               ∧ last (chat_memory w') = Some (AIMessage answer).
Proof.
  rewrite process_message_eval.
  destruct (agent_executor self user_message _) as [[response|e] w2];
    eexists _, _; (split; [reflexivity | apply last_snoc]).
Qed.

(** C1. When the executor raises during a turn, whatever the error,
    [process_message] does not raise: it returns the apology built from
    the error text, and that apology is appended to the memory, the last
    entry of the history [get_conversation_history] returns. *)
Theorem process_message_apologises self user_message w e w2 :
  agent_executor self user_message
    (mkWorld (chat_memory w ++ [HumanMessage user_message]) (env w))
    = (Raise e, w2) →
  ∃ apology history w',
    process_message self user_message w = (Ok apology, w')
    ∧ apology = "I apologize, but I encountered an error while processing "
                +:+ "your request. Please try again or contact human "
                +:+ "support if the issue persists. Error: " +:+ e
    ∧ fst (get_conversation_history self w') = Ok history
    ∧ history = chat_memory w2 ++ [AIMessage apology]
    ∧ last history = Some (AIMessage apology).
Proof.
  intros Hraise. rewrite process_message_eval, Hraise.
  eexists _, _, _. split; [reflexivity|].
  split; [reflexivity|]. split; [reflexivity|].
  split; [reflexivity | apply last_snoc].
Qed.

End Conversation.

Section Tools.
Context {DB : Type} `{!VectorStore DB} `{!Platform} `{!ChatModel}.
Implicit Types (w : Env DB) (kb : KnowledgeBaseManager).

(** [search] never raises, so the [except] branch of the
    [search_knowledge_base] tool is never taken. *)
Lemma search_knowledge_base_eval kb query w :
  ∃ texts w', search kb query 2 w = (Ok texts, w')
    ∧ search_knowledge_base kb query w
      = (Ok (if Py.truthy texts
             then "Found relevant information:" +:+ Py.nl
                  +:+ Py.join (Py.nl +:+ Py.nl) texts
             else "No relevant information found in the knowledge base."),
         w').
Proof.
  unfold search_knowledge_base, try_except, mbind, M_bind, bind.
  rewrite search_eval.
  destruct (vs_similarity_search query 2 (store w)) as [[docs|e] s'];
    eexists _, _; (split; [reflexivity|]); run_py.
  - by destruct (Py.truthy (page_content <$> docs)).
  - reflexivity.
Qed.

(** C5. The [search_knowledge_base] tool never raises.  When the search
    for the query with [k = 2] finds nothing it returns the sentinel
    string; otherwise, the store answering with at most two documents, it
    returns a header line followed by the at most two chunk texts found,
    joined by blank lines.  The executor's call of the tool by name is
    that same call, and a turn of the agent around it, whatever the model
    asks for and answers, returns a string and does not raise. *)
Theorem search_tool_answers kb config query w user_message world :
  (∀ docs s', vs_similarity_search query 2 (store w) = (Ok docs, s') →
              (length docs ≤ 2)%nat) →
  (∃ texts observation w',
     fst (search kb query 2 w) = Ok texts
     ∧ search_knowledge_base kb query w = (Ok observation, w')
     ∧ run_tool (_create_tools kb) "search_knowledge_base"
                {["query" := query]} w = (Ok observation, w')
     ∧ (length texts ≤ 2)%nat
     ∧ match texts with
       | [] => observation
               = "No relevant information found in the knowledge base."
       | _ :: _ => observation
                   = "Found relevant information:" +:+ Py.nl
                     +:+ Py.join (Py.nl +:+ Py.nl) texts
       end)
  ∧ ∃ answer world',
      process_message (CustomerSupportAgent_init kb config) user_message
                      world = (Ok answer, world').
Proof.
  intros Hk. split.
  - destruct (search_knowledge_base_eval kb query w)
      as (texts & w' & Hsearch & Htool).
    exists texts, (if Py.truthy texts
              then "Found relevant information:" +:+ Py.nl
                   +:+ Py.join (Py.nl +:+ Py.nl) texts
              else "No relevant information found in the knowledge base."),
           w'.
    split; [by rewrite Hsearch|]. split; [exact Htool|].
    split; [|split].
    + unfold run_tool, find_tool. simpl.
      unfold required, mbind, M_bind, bind.
      rewrite lookup_singleton_eq. exact Htool.
    + rewrite search_eval in Hsearch.
      destruct (vs_similarity_search query 2 (store w))
        as [[docs|e] s'] eqn:Hs; inversion Hsearch; subst; simpl; [|lia].
      rewrite length_fmap. eauto.
    + by destruct texts.
  - destruct (process_message_total (CustomerSupportAgent_init kb config)
                user_message world) as (answer & world' & Heq & _).
    eauto.
Qed.

(** The four-digit rendering: for [0 <= n < 10000], [f"{n:04d}"] has
    exactly four characters, digits that read back as [n]. *)
Lemma format_04d_four_digits n :
  0 ≤ n < 10000 →
  String.length (Py.format_04d n) = 4%nat
  ∧ Py.int_of_digits 0 (Py.format_04d n) = Some n.
Proof.
  intros Hn.
  assert (Hall : forallb (λ i : nat,
            let s := Py.format_04d (Z.of_nat i) in
            Nat.eqb (String.length s) 4
            && match Py.int_of_digits 0 s with
               | Some m => m =? Z.of_nat i
               | None => false
               end) (seq 0 (Z.to_nat 10000)) = true)
    by (vm_compute; reflexivity).
  rewrite forallb_forall in Hall.
  specialize (Hall (Z.to_nat n)).
  rewrite Z2Nat.id in Hall by lia.
  assert (Hin : In (Z.to_nat n) (seq 0 (Z.to_nat 10000)))
    by (apply in_seq; lia).
  apply Hall in Hin. apply andb_prop in Hin as [Hlen Hval].
  apply Nat.eqb_eq in Hlen. split; [exact Hlen|].
  destruct (Py.int_of_digits 0 (Py.format_04d n)) as [m|]; [|discriminate].
  apply Z.eqb_eq in Hval. by subst.
Qed.

(** C6. [create_support_ticket] returns the text announcing a ticket whose
    identifier is [TKT-] followed by the four decimal digits of
    [hash(issue) % 10000], with the given priority ([medium] when omitted)
    and the status [Open].  The identifier depends on the issue text
    alone: two calls with the same issue, whatever their priorities and
    worlds, announce the same identifier. *)
Theorem create_support_ticket_identifier issue priority priority' w w' :
  ∃ digits,
    String.length digits = 4%nat
    ∧ Py.int_of_digits 0 digits = Some (py_hash issue `mod` 10000)
    ∧ create_support_ticket issue priority w
      = (Ok ("Support ticket created: TKT-" +:+ digits +:+ Py.nl
             +:+ "Issue: " +:+ issue +:+ Py.nl
             +:+ "Priority: " +:+ default "medium" priority +:+ Py.nl
             +:+ "Status: Open"), w)
    ∧ create_support_ticket issue None w
      = (Ok ("Support ticket created: TKT-" +:+ digits +:+ Py.nl
             +:+ "Issue: " +:+ issue +:+ Py.nl
             +:+ "Priority: medium" +:+ Py.nl
             +:+ "Status: Open"), w)
    ∧ ∃ rest, create_support_ticket issue priority' w'
              = (Ok ("Support ticket created: TKT-" +:+ digits +:+ rest), w').
Proof.
  exists (Py.format_04d (py_hash issue `mod` 10000)).
  destruct (format_04d_four_digits (py_hash issue `mod` 10000))
    as [Hlen Hval]; [apply Z.mod_pos_bound; lia|].
  split; [exact Hlen|]. split; [exact Hval|].
  split; [reflexivity|]. split; [reflexivity|].
  eexists. reflexivity.
Qed.

End Tools.

Section Turns.
Context {DB : Type} `{!VectorStore DB} `{!Platform} `{!ChatModel}.
Implicit Types (w : World DB) (kb : KnowledgeBaseManager).

(** A turn of an agent whose executor shares the memory, when the call
    inside the executor returns. *)
Lemma process_message_shared_memory kb config tools call user_message
  w output e' :
  call (chat_memory w ++ [HumanMessage user_message]) user_message (env w)
    = (Ok output, e') →
  process_message (mkAgent kb config tools (AgentExecutor_invoke call))
                  user_message w
  = (Ok output,
     mkWorld (chat_memory w
              ++ [HumanMessage user_message; HumanMessage user_message;
                  AIMessage output; AIMessage output]) e').
Proof.
  intros Hcall. rewrite process_message_eval. simpl.
  unfold AgentExecutor_invoke, add_user_message, add_ai_message, in_env;
    run_py.
  rewrite Hcall. simpl. rewrite <- !app_assoc. reflexivity.
Qed.

(** C9. In a turn of the agent built by [__init__] in which the executor's
    call returns an output, the user message is in the memory twice and so
    is the answer: the memory grows by four messages, and the
    [memory_length] of [get_agent_status] counts all four. *)
Theorem successful_turn_adds_four kb config user_message w output e' :
  AgentExecutor_call (_create_tools kb)
    (chat_memory w ++ [HumanMessage user_message]) user_message (env w)
    = (Ok output, e') →
  ∃ w' status w'',
    process_message (CustomerSupportAgent_init kb config) user_message w
      = (Ok output, w')
    ∧ chat_memory w'
      = chat_memory w
        ++ [HumanMessage user_message; HumanMessage user_message;
            AIMessage output; AIMessage output]
    ∧ length (chat_memory w') = (length (chat_memory w) + 4)%nat
    ∧ get_agent_status (CustomerSupportAgent_init kb config) w'
      = (Ok status, w'')
    ∧ status !! "memory_length"
      = Some (PInt (Z.of_nat (length (chat_memory w)) + 4)).
Proof.
  intros Hcall. unfold CustomerSupportAgent_init.
  rewrite (process_message_shared_memory _ _ _ _ _ _ _ _ Hcall).
  eexists _, _, _. split; [reflexivity|]. split; [reflexivity|].
  split; [simpl; rewrite length_app; reflexivity|].
  split; [reflexivity|].
  simpl. rewrite length_app. simpl.
  rewrite lookup_insert_ne by done. rewrite lookup_insert_ne by done.
  rewrite lookup_insert_ne by done. rewrite lookup_insert_eq.
  do 2 f_equal. lia.
Qed.

End Turns.

(** ** Further properties of the knowledge base *)

Section KnowledgeBaseFacts.
Context {DB : Type} `{!VectorStore DB} `{!Platform}.
Implicit Types (w : Env DB) (self : KnowledgeBaseManager).

(** The whole effect of [add_documents], shared by the statements below. *)
Lemma add_documents_effect self file_paths w :
  let chunks := batch_chunks self file_paths in
  let run := add_documents self file_paths w in
  store (snd run)
  = (if Py.truthy chunks then snd (write_chunks chunks (store w))
     else store w)
  ∧ fst run
    = Ok (Py.truthy chunks && is_ok (fst (write_chunks chunks (store w))))
  ∧ instant (snd run) = instant w
  ∧ ∃ records, log (snd run) = log w ++ records.
Proof.
  intros chunks run. subst run.
  destruct (add_documents self file_paths w) as [r w'] eqn:Hrun. simpl.
  revert Hrun. unfold add_documents, try_except.
  destruct (gather_chunks_eval self file_paths [] w)
    as (w1 & Hgather & (Hs & Hi & l & Hl) & _).
  unfold mbind, M_bind, bind at 1. rewrite Hgather. cbv beta iota.
  simpl app. fold chunks. unfold write_chunks.
  destruct (Py.truthy chunks) eqn:Hchunks; run_py; rewrite ?Hchunks.
  - rewrite Hs.
    destruct (vs_add_documents chunks (store w)) as [[[]|e] s1]; simpl.
    + destruct (vs_persist s1) as [[[]|e] s2]; simpl;
        intros [= <- <-]; simpl;
        (split; [reflexivity|]); (split; [reflexivity|]);
        (split; [exact Hi|]); rewrite Hl, <- app_assoc; by eexists.
    + intros [= <- <-]; simpl.
      split; [reflexivity|]. split; [reflexivity|].
      split; [exact Hi|]. rewrite Hl, <- app_assoc. by eexists.
  - intros [= <- <-].
    split; [exact Hs|]. split; [reflexivity|].
    split; [exact Hi|]. by eexists.
Qed.

(** What [add_documents] does to the store: nothing at all when the batch
    yields no chunk, and otherwise one write of all the chunks of the batch,
    in the order of the paths, followed by one persist.  A verdict of [True]
    means that write went through.  The clock is not read and the log only
    grows. *)
Theorem add_documents_store_effect self file_paths w :
  let chunks := batch_chunks self file_paths in
  let run := add_documents self file_paths w in
  store (snd run)
  = (if Py.truthy chunks then snd (write_chunks chunks (store w))
     else store w)
  ∧ fst run
    = Ok (Py.truthy chunks && is_ok (fst (write_chunks chunks (store w))))
  ∧ instant (snd run) = instant w
  ∧ ∃ records, log (snd run) = log w ++ records.
Proof. apply add_documents_effect. Qed.

Lemma substring_split (p : string) : ∀ n,
  String.substring 0 n p +:+ String.substring n (String.length p - n) p = p.
Proof.
  induction p as [|c p IH]; intros [|n]; simpl; try reflexivity.
  - specialize (IH 0%nat). rewrite Nat.sub_0_r in IH.
    change (String c (String.substring 0 (String.length p) p) = String c p).
    f_equal. by destruct p.
  - change (String c (String.substring 0 n p
                      +:+ String.substring n (String.length p - n) p)
            = String c p).
    f_equal. apply IH.
Qed.

Lemma append_empty_r (s : string) : s +:+ "" = s.
Proof.
  induction s as [|c s IH]; [reflexivity|].
  rewrite <- IH at 2. reflexivity.
Qed.

Lemma splitext_joins (p : string) :
  fst (Py.splitext p) +:+ snd (Py.splitext p) = p.
Proof.
  unfold Py.splitext.
  destruct (_ && _); simpl; [apply substring_split | apply append_empty_r].
Qed.

Lemma select_loader_supported file_extension file_path loader :
  select_loader file_extension file_path = Some loader →
  file_extension ∈ supported_extensions.
Proof.
  unfold select_loader, supported_extensions.
  destruct (String.eqb_spec file_extension ".txt") as [->|_]; [set_solver|].
  destruct (String.eqb_spec file_extension ".pdf") as [->|_]; [set_solver|].
  destruct (String.eqb_spec file_extension ".csv") as [->|_]; [set_solver|].
  destruct (String.eqb_spec file_extension ".md") as [->|_]; [set_solver|].
  discriminate.
Qed.

(** A path that contributes a chunk exists and is some root followed by an
    extension that lower-cases to one of the four supported ones. *)
Lemma file_chunks_only_supported self file_path :
  file_chunks self file_path ≠ [] →
  os_path_exists file_path = true
  ∧ ∃ root ext, file_path = root +:+ ext
                ∧ Py.lower ext ∈ supported_extensions.
Proof.
  unfold file_chunks. intros Hchunks.
  destruct (os_path_exists file_path); [|done].
  split; [reflexivity|].
  exists (fst (Py.splitext file_path)), (snd (Py.splitext file_path)).
  split; [by rewrite splitext_joins|].
  unfold documents_of in Hchunks.
  destruct (select_loader (file_extension_of file_path) file_path)
    as [loader|] eqn:Hsel; [|done].
  by apply select_loader_supported in Hsel.
Qed.

(** The paths of a batch that are missing or carry no supported extension
    add nothing to its chunks. *)
Lemma batch_chunks_eligible self file_paths :
  batch_chunks self file_paths
  = batch_chunks self
      (List.filter (λ p, os_path_exists p
                         && bool_decide (file_extension_of p
                                         ∈ supported_extensions))
                   file_paths).
Proof.
  induction file_paths as [|p rest IH]; [reflexivity|].
  cbn [List.filter].
  destruct (os_path_exists p) eqn:Hex; cbn [andb].
  - destruct (bool_decide_reflect (file_extension_of p ∈ supported_extensions))
      as [Hin|Hout].
    + change (file_chunks self p ++ batch_chunks self rest
              = file_chunks self p ++ batch_chunks self
                  (List.filter (λ p, os_path_exists p
                                     && bool_decide (file_extension_of p
                                                     ∈ supported_extensions))
                               rest)).
      by rewrite IH.
    + change (file_chunks self p ++ batch_chunks self rest = batch_chunks self
                  (List.filter (λ p, os_path_exists p
                                     && bool_decide (file_extension_of p
                                                     ∈ supported_extensions))
                               rest)).
      by rewrite (file_chunks_unsupported self p Hout), IH.
  - change (file_chunks self p ++ batch_chunks self rest = batch_chunks self
                (List.filter (λ p, os_path_exists p
                                   && bool_decide (file_extension_of p
                                                   ∈ supported_extensions))
                             rest)).
    unfold file_chunks at 1. by rewrite Hex, IH.
Qed.

Lemma batch_chunks_nonempty self file_paths :
  batch_chunks self file_paths ≠ [] →
  ∃ file_path, file_path ∈ file_paths ∧ file_chunks self file_path ≠ [].
Proof.
  induction file_paths as [|p rest IH]; [done|].
  change (batch_chunks self (p :: rest))
    with (file_chunks self p ++ batch_chunks self rest).
  destruct (file_chunks self p) as [|c cs] eqn:Hp.
  - intros Hrest. destruct (IH Hrest) as (q & Hq & Hchunks).
    exists q. split; [by apply list_elem_of_further | exact Hchunks].
  - intros _. exists p. split; [apply list_elem_of_here|]. by rewrite Hp.
Qed.

(** Only existing files with one of the four suffixes, upper or lower case,
    ever contribute chunks.  The loop of [add_documents] accumulates exactly
    the chunks of the paths of the batch that exist and whose lower-cased
    extension is [.txt], [.pdf], [.csv] or [.md]; every other path can be
    dropped from the batch without changing what the loop accumulates or
    what [add_documents] returns; and a batch for which [add_documents]
    returns [True] names at least one existing file that is some root
    followed by such an extension. *)
Theorem chunks_only_from_supported_files self file_paths w :
  let eligible := λ p, os_path_exists p
                       && bool_decide (file_extension_of p
                                       ∈ supported_extensions) in
  fst (gather_chunks self file_paths [] w)
  = Ok (List.flat_map (file_chunks self) (List.filter eligible file_paths))
  ∧ fst (gather_chunks self file_paths [] w)
    = fst (gather_chunks self (List.filter eligible file_paths) [] w)
  ∧ fst (add_documents self file_paths w)
    = fst (add_documents self (List.filter eligible file_paths) w)
  ∧ (fst (add_documents self file_paths w) = Ok true →
     ∃ file_path root ext,
       file_path ∈ file_paths
       ∧ os_path_exists file_path = true
       ∧ file_path = root +:+ ext
       ∧ Py.lower ext ∈ supported_extensions).
Proof.
  intros eligible.
  pose proof (batch_chunks_eligible self file_paths) as Hsame.
  fold eligible in Hsame.
  destruct (gather_chunks_eval self file_paths [] w) as (w1 & Hg1 & _).
  destruct (gather_chunks_eval self (List.filter eligible file_paths) [] w)
    as (w2 & Hg2 & _).
  destruct (add_documents_eval self file_paths w) as (w3 & Ha1 & _).
  destruct (add_documents_eval self (List.filter eligible file_paths) w)
    as (w4 & Ha2 & _).
  rewrite Hg1, Hg2, Ha1, Ha2. cbn [fst app].
  split; [by rewrite Hsame|]. split; [by rewrite Hsame|].
  split; [by rewrite Hsame|].
  intros [= Htrue]. apply andb_prop in Htrue as [Hchunks _].
  destruct (batch_chunks_nonempty self file_paths) as (p & Hp & Hcontrib).
  { intros Hnil. rewrite Hnil in Hchunks. discriminate. }
  destruct (file_chunks_only_supported self p Hcontrib)
    as (Hex & root & ext & Hsplit & Hext).
  by exists p, root, ext.
Qed.

(** [get_collection_info] never raises and always has both entries: the
    directory the manager was built with, and the count of the "langchain"
    collection, or 0 when the store cannot give it.  A failing store and an
    empty collection are reported alike. *)
Theorem get_collection_info_reports directory w :
  ∃ info w',
    get_collection_info (KnowledgeBaseManager_init directory) w = (Ok info, w')
    ∧ info !! "persist_directory" = Some (PStr directory)
    ∧ info !! "total_documents"
      = Some (PInt match fst (client_collection_count "langchain" (store w))
                   with
                   | Ok count => count
                   | Raise _ => 0
                   end)
    ∧ dom info = {["total_documents"; "persist_directory"]}.
Proof.
  unfold get_collection_info; run_py.
  destruct (client_collection_count "langchain" (store w)) as [[n|e] s'];
    simpl; eexists _, _; (split; [reflexivity|]);
    (split; [reflexivity|]); (split; [reflexivity|]);
    rewrite !dom_insert_L, dom_empty_L; set_solver.
Qed.

(** Every operation of the knowledge base only appends to the log and does
    not read the clock; [search] and [get_collection_info] log nothing when
    the store answers. *)
Theorem knowledge_base_log_append_only self file_path documents file_paths
  query k w :
  (∃ l, log (snd (load_document self file_path w)) = log w ++ l)
  ∧ (∃ l, log (snd (process_documents self documents w)) = log w ++ l)
  ∧ (∃ l, log (snd (add_documents self file_paths w)) = log w ++ l)
  ∧ (∃ l, log (snd (clear_knowledge_base self w)) = log w ++ l)
  ∧ log (snd (search self query k w))
    = log w ++ match fst (vs_similarity_search query k (store w)) with
               | Ok _ => []
               | Raise e =>
                   [mkLog ERROR ("Error searching knowledge base: " +:+ e)]
               end
  ∧ log (snd (get_collection_info self w))
    = log w ++ match fst (client_collection_count "langchain" (store w)) with
               | Ok _ => []
               | Raise e =>
                   [mkLog ERROR ("Error getting collection info: " +:+ e)]
               end.
Proof.
  split; [|split; [|split; [|split; [|split]]]].
  - destruct (load_document_eval self file_path w) as (w' & -> & _ & _ & Hl).
    exact Hl.
  - destruct (process_documents_eval self documents w)
      as (w' & -> & _ & _ & Hl).
    exact Hl.
  - apply (add_documents_effect self file_paths w).
  - unfold clear_knowledge_base; run_py.
    destruct (client_reset (store w)) as [[[]|e] s']; simpl; by eexists.
  - rewrite search_eval.
    destruct (vs_similarity_search query k (store w)) as [[docs|e] s'];
      simpl; [by rewrite app_nil_r | reflexivity].
  - unfold get_collection_info; run_py.
    destruct (client_collection_count "langchain" (store w)) as [[n|e] s'];
      simpl; [by rewrite app_nil_r | reflexivity].
Qed.

End KnowledgeBaseFacts.

(** ** Further properties of the agent *)

Section AgentFacts.
Context {DB : Type} `{!VectorStore DB} `{!Platform} `{!ChatModel}.
Implicit Types (w : World DB) (kb : KnowledgeBaseManager).

(** [clear_memory] empties the conversation: afterwards the history is
    empty and the status reports a memory length of 0, the store is
    untouched, and clearing again is safe and leaves the memory empty. *)
Theorem clear_memory_empties (self : CustomerSupportAgent DB) w :
  ∃ w' status,
    clear_memory self w = (Ok tt, w')
    ∧ fst (get_conversation_history self w') = Ok []
    ∧ fst (get_agent_status self w') = Ok status
    ∧ status !! "memory_length" = Some (PInt 0)
    ∧ store (env w') = store (env w)
    ∧ fst (clear_memory self w') = Ok tt
    ∧ chat_memory (snd (clear_memory self w')) = [].
Proof.
  unfold clear_memory, get_conversation_history, get_agent_status, in_env;
    run_py.
  eexists _, _. repeat split.
Qed.

(** A turn of the agent built by [__init__] only appends to the memory:
    when the executor's call returns an output, the user message and the
    output, each twice; when it raises, the user message once and the
    apology once.  Either way the answer returned is the last message, and
    nothing of the earlier history is changed. *)
Theorem turn_appends kb config user_message w :
  ∃ answer w',
    process_message (CustomerSupportAgent_init kb config) user_message w
    = (Ok answer, w')
    ∧ match fst (AgentExecutor_call (_create_tools kb)
                   (chat_memory w ++ [HumanMessage user_message])
                   user_message (env w)) with
      | Ok output =>
          answer = output
          ∧ chat_memory w'
            = chat_memory w
              ++ [HumanMessage user_message; HumanMessage user_message;
                  AIMessage output; AIMessage output]
      | Raise e =>
          answer = error_response_of e
          ∧ chat_memory w'
            = chat_memory w
              ++ [HumanMessage user_message;
                  AIMessage (error_response_of e)]
      end
    ∧ chat_memory w `prefix_of` chat_memory w'
    ∧ last (chat_memory w') = Some (AIMessage answer).
Proof.
  destruct (AgentExecutor_call (_create_tools kb)
              (chat_memory w ++ [HumanMessage user_message])
              user_message (env w)) as [[output|e] e'] eqn:Hcall.
  - unfold CustomerSupportAgent_init.
    rewrite (process_message_shared_memory _ _ _ _ _ _ _ _ Hcall).
    eexists _, _. split; [reflexivity|]. simpl.
    split; [split; reflexivity|]. split; [by eexists|].
    change [HumanMessage user_message; HumanMessage user_message;
            AIMessage output; AIMessage output]
      with ([HumanMessage user_message; HumanMessage user_message;
             AIMessage output] ++ [AIMessage output]).
    rewrite app_assoc. apply last_snoc.
  - rewrite process_message_eval. simpl.
    unfold AgentExecutor_invoke, add_user_message, add_ai_message, in_env;
      run_py.
    rewrite Hcall. simpl.
    eexists _, _. split; [reflexivity|]. simpl.
    split; [split; [reflexivity | by rewrite <- app_assoc]|].
    split; [rewrite <- app_assoc; by eexists | apply last_snoc].
Qed.

(** The status of an agent built from the front end's [config_dict] shows
    the values of [Config], not the defaults written in [get_agent_status];
    with an empty configuration it shows those defaults.  In both cases five
    tools are reported, and reading the status changes nothing. *)
Theorem get_agent_status_reports kb (cls : Config) w :
  ∃ status defaults,
    get_agent_status (CustomerSupportAgent_init kb (Console.config_dict cls))
                     w = (Ok status, w)
    ∧ status !! "model" = Some (PStr (GEMINI_MODEL cls))
    ∧ status !! "temperature" = Some (PFloat (TEMPERATURE cls))
    ∧ status !! "max_tokens" = Some (PInt (MAX_TOKENS cls))
    ∧ status !! "memory_length"
      = Some (PInt (Z.of_nat (length (chat_memory w))))
    ∧ status !! "tools_available" = Some (PInt 5)
    ∧ get_agent_status (CustomerSupportAgent_init kb ∅) w = (Ok defaults, w)
    ∧ defaults !! "model" = Some (PStr "gemini-1.5-flash")
    ∧ defaults !! "temperature" = Some (PFloat "0.7")
    ∧ defaults !! "max_tokens" = Some (PInt 500)
    ∧ defaults !! "tools_available" = Some (PInt 5).
Proof.
  unfold get_agent_status; run_py.
  eexists _, _. split; [reflexivity|].
  repeat split.
Qed.

Lemma tools_keep_store kb (t : Tool DB) args (e : Env DB) :
  (∀ query k s, snd (vs_similarity_search query k s) = s) →
  t ∈ _create_tools kb →
  store (snd (tool_run t args e)) = store e.
Proof.
  intros Hread Ht. unfold _create_tools in Ht.
  repeat (apply elem_of_cons in Ht as [->|Ht]);
    [..|by apply elem_of_nil in Ht]; simpl;
    unfold required, mbind, M_bind, bind;
    repeat (destruct (args !! _); simpl; [|reflexivity]);
    try reflexivity.
  unfold search_knowledge_base, try_except, mbind, M_bind, bind.
  rewrite search_eval.
  pose proof (Hread s 2 (store e)) as Hs.
  destruct (vs_similarity_search s 2 (store e)) as [[docs|err] s'];
    simpl in *; subst s'.
  - by destruct (Py.truthy (page_content <$> docs)).
  - reflexivity.
Qed.

Lemma run_tool_keeps_store kb name args (e : Env DB) :
  (∀ query k s, snd (vs_similarity_search query k s) = s) →
  store (snd (run_tool (_create_tools kb) name args e)) = store e.
Proof.
  intros Hread. unfold run_tool, find_tool.
  destruct (List.find _ _) as [t|] eqn:Hfind; [|reflexivity].
  apply List.find_some in Hfind as [Hin _].
  apply (tools_keep_store kb); [exact Hread|].
  by apply list_elem_of_In.
Qed.

Lemma executor_loop_keeps_store kb iterations : ∀ history input steps
  (e : Env DB),
  (∀ query k s, snd (vs_similarity_search query k s) = s) →
  store (snd (AgentExecutor_loop iterations (_create_tools kb) history input
                steps e)) = store e.
Proof.
  induction iterations as [|n IH]; intros history input steps e Hread;
    [reflexivity|].
  cbn [AgentExecutor_loop]. unfold mbind, M_bind, bind, ask_model.
  destruct (agent_plan _ _ _ _) as [[output|name args]|err]; simpl;
    try reflexivity.
  pose proof (run_tool_keeps_store kb name args
                (mkEnv (store e) (log e) (S (instant e))) Hread) as Hrun.
  destruct (run_tool _ _ _ _) as [[observation|err] e1]; cbn [fst snd] in *.
  - rewrite IH by exact Hread. exact Hrun.
  - exact Hrun.
Qed.

(** Reading the knowledge base is all a conversation does to it.  Provided
    a similarity search leaves the store as it was, a turn of the agent
    leaves the store as it was, whatever the model asks for: no tool adds,
    removes or resets anything. *)
Theorem conversation_keeps_store kb config user_message w :
  (∀ query k s, snd (vs_similarity_search query k s) = s) →
  store (env (snd (process_message (CustomerSupportAgent_init kb config)
                     user_message w)))
  = store (env w).
Proof.
  intros Hread. rewrite process_message_eval. simpl.
  unfold AgentExecutor_invoke, add_user_message, add_ai_message, in_env;
    run_py.
  pose proof (executor_loop_keeps_store kb max_iterations
                (chat_memory w ++ [HumanMessage user_message]) user_message
                [] (env w) Hread) as Hloop.
  unfold AgentExecutor_call.
  destruct (AgentExecutor_loop _ _ _ _ _ _) as [[output|err] e1];
    simpl in *; exact Hloop.
Qed.

(** Two issues get the same ticket identifier exactly when their hashes
    agree modulo 10000: nothing else of the issue text enters the
    identifier, and nothing detects the collision. *)
Theorem ticket_ids_collide issue1 issue2 :
  ticket_id_of issue1 = ticket_id_of issue2
  ↔ py_hash issue1 `mod` 10000 = py_hash issue2 `mod` 10000.
Proof.
  unfold ticket_id_of. split; [|by intros ->].
  intros Hid.
  assert (Hdigits : Py.format_04d (py_hash issue1 `mod` 10000)
                    = Py.format_04d (py_hash issue2 `mod` 10000))
    by (by injection Hid).
  destruct (format_04d_four_digits (py_hash issue1 `mod` 10000))
    as [_ H1]; [apply Z.mod_pos_bound; lia|].
  destruct (format_04d_four_digits (py_hash issue2 `mod` 10000))
    as [_ H2]; [apply Z.mod_pos_bound; lia|].
  rewrite Hdigits, H2 in H1. by injection H1.
Qed.

(** There are only 10000 ticket identifiers: among more than 10000 tickets,
    whatever their issues, two carry the same identifier. *)
Theorem ticket_ids_run_out (issues : list string) :
  10000 < Z.of_nat (length issues) →
  ¬ NoDup (ticket_id_of <$> issues).
Proof.
  intros Hmany Hnodup.
  set (all := (λ n : nat, "TKT-" +:+ Py.format_04d (Z.of_nat n))
              <$> seq 0 (Z.to_nat 10000)).
  assert (Hsub : ticket_id_of <$> issues ⊆+ all).
  { apply NoDup_submseteq; [exact Hnodup|].
    intros id Hid. apply list_elem_of_fmap in Hid as (issue & -> & _).
    apply list_elem_of_fmap.
    exists (Z.to_nat (py_hash issue `mod` 10000)). split.
    - unfold ticket_id_of. rewrite Z2Nat.id; [reflexivity|].
      apply Z.mod_pos_bound; lia.
    - apply elem_of_seq.
      pose proof (Z.mod_pos_bound (py_hash issue) 10000 ltac:(lia)). lia. }
  apply submseteq_length in Hsub.
  subst all. rewrite !length_fmap, length_seq in Hsub. lia.
Qed.

End AgentFacts.

(** ** The console *)

Section StrFacts.

Lemma lower_isspace c : Str.isspace (Py.lower_ascii c) = Str.isspace c.
Proof. by destruct c as [[] [] [] [] [] [] [] []]. Qed.

Lemma lower_ascii_idem c :
  Py.lower_ascii (Py.lower_ascii c) = Py.lower_ascii c.
Proof. by destruct c as [[] [] [] [] [] [] [] []]. Qed.

Lemma lower_idem s : Py.lower (Py.lower s) = Py.lower s.
Proof.
  induction s as [|c s IH]; simpl; [reflexivity|].
  by rewrite lower_ascii_idem, IH.
Qed.

Lemma lower_app s t : Py.lower (s +:+ t) = Py.lower s +:+ Py.lower t.
Proof.
  induction s as [|c s IH]; [reflexivity|].
  change (String (Py.lower_ascii c) (Py.lower (s +:+ t))
          = String (Py.lower_ascii c) (Py.lower s +:+ Py.lower t)).
  by rewrite IH.
Qed.

Lemma lstrip_lower s : Str.lstrip (Py.lower s) = Py.lower (Str.lstrip s).
Proof.
  induction s as [|c s IH]; simpl; [reflexivity|].
  rewrite lower_isspace. by destruct (Str.isspace c).
Qed.

Lemma rstrip_lower s : Str.rstrip (Py.lower s) = Py.lower (Str.rstrip s).
Proof.
  induction s as [|c s IH]; simpl; [reflexivity|].
  rewrite IH, lower_isspace.
  destruct (Str.rstrip s); simpl; [by destruct (Str.isspace c) | reflexivity].
Qed.

Lemma strip_lower s : Str.strip (Py.lower s) = Py.lower (Str.strip s).
Proof. unfold Str.strip. by rewrite lstrip_lower, rstrip_lower. Qed.

Lemma lstrip_head s :
  Str.lstrip s = ""
  ∨ ∃ c t, Str.lstrip s = String c t ∧ Str.isspace c = false.
Proof.
  induction s as [|c s IH]; simpl; [by left|].
  destruct (Str.isspace c) eqn:Hc; [exact IH | right; eauto].
Qed.

Lemma rstrip_keeps_head c t :
  Str.isspace c = false → ∃ r, Str.rstrip (String c t) = String c r.
Proof.
  intros Hc. simpl. rewrite Hc. destruct (Str.rstrip t); eauto.
Qed.

Lemma rstrip_idem s : Str.rstrip (Str.rstrip s) = Str.rstrip s.
Proof.
  induction s as [|c s IH]; simpl; [reflexivity|].
  destruct (Str.rstrip s) as [|c' r] eqn:Hr.
  - destruct (Str.isspace c) eqn:Hc; simpl; [reflexivity | by rewrite Hc].
  - simpl in *. by rewrite IH.
Qed.

Lemma strip_idem s : Str.strip (Str.strip s) = Str.strip s.
Proof.
  unfold Str.strip.
  destruct (lstrip_head s) as [->|(c & t & -> & Hc)]; [reflexivity|].
  destruct (rstrip_keeps_head c t Hc) as [r Hr].
  rewrite Hr. simpl. rewrite Hc, <- Hr. apply rstrip_idem.
Qed.

Lemma normalize_idem command :
  Console.normalize (Console.normalize command) = Console.normalize command.
Proof.
  unfold Console.normalize.
  by rewrite strip_lower, lower_idem, strip_idem.
Qed.

Lemma normalize_strip command :
  Console.normalize (Str.strip command) = Console.normalize command.
Proof. unfold Console.normalize. by rewrite strip_idem. Qed.

Lemma strip_truthy_of_normalize command :
  Console.normalize command ≠ "" → Str.truthy (Str.strip command) = true.
Proof.
  unfold Console.normalize. by destruct (Str.strip command).
Qed.

End StrFacts.

Section ConsoleFacts.
Context {DB : Type} `{!VectorStore DB} `{!Platform} `{!ChatModel}
  `{!Host DB}.
Implicit Types (s : Console.Session DB).

(** Commands are read without regard to case and to blanks around them: a
    command line does what its stripped, lower-cased form does. *)
Theorem process_command_normalizes command s :
  Str.is_ascii command = true →
  Console.process_command command s
  = Console.process_command (Console.normalize command) s.
Proof.
  intros _. unfold Console.process_command. by rewrite normalize_idem.
Qed.

Lemma main_loop_stopped inputs s :
  Console.running s = false → Console.main_loop inputs s = (Ok tt, s).
Proof.
  intros Hstop. destruct inputs; simpl;
    unfold mbind, M_bind, bind, gets; by rewrite Hstop.
Qed.

(** [quit] and [exit] end the session: the goodbye is printed, the running
    flag is cleared, the agent and the knowledge base are not touched, and
    nothing entered after it is processed. *)
Theorem quit_ends_the_loop command rest s :
  Str.is_ascii command = true →
  Console.normalize command ∈ ["quit"; "exit"] →
  Console.running s = true →
  Console.main_loop (Line command :: rest) s
  = (Ok tt,
     Console.mkSession (Console.knowledge_base s) (Console.agent s) false
       (Console.stdout s ++ [Py.nl +:+ "💬 You: ";
                             "👋 Goodbye! Have a great day!"])
       (Console.created s) (Console.world s)).
Proof.
  intros _ Hquit Hrun.
  assert (Htruthy : Str.truthy (Str.strip command) = true).
  { apply strip_truthy_of_normalize. intros Hempty. rewrite Hempty in Hquit.
    rewrite !elem_of_cons, elem_of_nil in Hquit.
    by destruct Hquit as [?|[?|[]]]. }
  cbn [Console.main_loop]. unfold mbind, M_bind, bind at 1. unfold gets at 1.
  rewrite Hrun. cbv beta iota. rewrite Htruthy.
  unfold Console.process_command. rewrite normalize_strip.
  rewrite (bool_decide_eq_true_2 _ Hquit).
  unfold Console.print, Console.set_running, mbind, M_bind, bind, modify.
  cbn [Console.knowledge_base Console.agent Console.running Console.stdout
       Console.created Console.world].
  rewrite main_loop_stopped by reflexivity.
  by rewrite <- app_assoc.
Qed.

End ConsoleFacts.

Section ConsoleCommands.
Context {DB : Type} `{!VectorStore DB} `{!Platform} `{!ChatModel}
  `{!Host DB}.
Implicit Types (s : Console.Session DB).

Lemma same_objects_refl s : same_objects s s.
Proof. repeat split. exists []. by rewrite app_nil_r. Qed.

Lemma same_objects_trans s1 s2 s3 :
  same_objects s1 s2 → same_objects s2 s3 → same_objects s1 s3.
Proof.
  intros (Hk & Ha & Hc & l & Hl) (Hk' & Ha' & Hc' & l' & Hl').
  repeat split; [congruence..|].
  exists (l ++ l'). by rewrite Hl', Hl, app_assoc.
Qed.

Lemma get_collection_info_keys (kb : KnowledgeBaseManager) (e : Env DB) :
  ∃ info e' total directory,
    get_collection_info kb e = (Ok info, e')
    ∧ info !! "total_documents" = Some total
    ∧ info !! "persist_directory" = Some directory.
Proof.
  unfold get_collection_info; run_py.
  destruct (client_collection_count "langchain" (store e)) as [[n|err] s'];
    simpl; eexists _, _, _, _; repeat split.
Qed.

Lemma get_agent_status_keys (a : CustomerSupportAgent DB) (w : World DB) :
  ∃ status v1 v2 v3 v4 v5,
    get_agent_status a w = (Ok status, w)
    ∧ status !! "model" = Some v1
    ∧ status !! "temperature" = Some v2
    ∧ status !! "max_tokens" = Some v3
    ∧ status !! "memory_length" = Some v4
    ∧ status !! "tools_available" = Some v5.
Proof.
  unfold get_agent_status; run_py.
  eexists _, _, _, _, _, _. repeat split.
Qed.

Lemma clear_knowledge_base_total (kb : KnowledgeBaseManager) (e : Env DB) :
  ∃ cleared e', clear_knowledge_base kb e = (Ok cleared, e').
Proof.
  unfold clear_knowledge_base; run_py.
  destruct (client_reset (store e)) as [[[]|err] s']; simpl; eauto.
Qed.

Lemma search_total (kb : KnowledgeBaseManager) query k (e : Env DB) :
  ∃ texts e', search kb query k e = (Ok texts, e').
Proof.
  rewrite search_eval.
  destruct (vs_similarity_search query k (store e)) as [[docs|err] s']; eauto.
Qed.

Lemma bind_ok {St A B} (m : M St A) (k : A → M St B) st a st1 :
  m st = (Ok a, st1) → (m ≫= k) st = k a st1.
Proof. intros Hm. unfold mbind, M_bind, bind. by rewrite Hm. Qed.

Lemma print_ok line s :
  Console.print line s
  = (Ok tt, Console.mkSession (Console.knowledge_base s) (Console.agent s)
              (Console.running s) (Console.stdout s ++ [line])
              (Console.created s) (Console.world s)).
Proof. reflexivity. Qed.

Lemma same_objects_print s line s' :
  same_objects
    (Console.mkSession (Console.knowledge_base s) (Console.agent s)
       (Console.running s) (Console.stdout s ++ [line]) (Console.created s)
       (Console.world s)) s' →
  same_objects s s'.
Proof.
  intros Hsame. eapply same_objects_trans; [|exact Hsame].
  repeat split. by eexists.
Qed.

Ltac print_step := erewrite bind_ok; [|apply print_ok].

Lemma print_results_total results : ∀ i s,
  ∃ s', Console.print_results i results s = (Ok tt, s')
        ∧ same_objects s s' ∧ Console.running s' = Console.running s
        ∧ Console.world s' = Console.world s.
Proof.
  induction results as [|r rest IH]; intros i s.
  - exists s. split; [reflexivity|].
    split; [apply same_objects_refl | done].
  - cbn [Console.print_results]. do 2 print_step.
    match goal with
    | |- context [Console.print_results ?j rest ?st] =>
        destruct (IH j st) as (s' & -> & Hsame & Hrun & Hw)
    end.
    exists s'. split; [reflexivity|]. split; [|done].
    by do 2 apply same_objects_print in Hsame.
Qed.

Lemma print_messages_total messages : ∀ i s,
  ∃ s', Console.print_messages i messages s = (Ok tt, s')
        ∧ same_objects s s' ∧ Console.running s' = Console.running s
        ∧ Console.world s' = Console.world s.
Proof.
  induction messages as [|m rest IH]; intros i s.
  - exists s. split; [reflexivity|].
    split; [apply same_objects_refl | done].
  - cbn [Console.print_messages]. destruct m as [content|content];
      do 2 print_step;
      match goal with
      | |- context [Console.print_messages ?j rest ?st] =>
          destruct (IH j st) as (s' & -> & Hsame & Hrun & Hw)
      end;
      (exists s'; split; [reflexivity|]; split; [|done]);
      by do 2 apply same_objects_print in Hsame.
Qed.

Ltac norm :=
  cbn [Console.knowledge_base Console.agent Console.running Console.stdout
       Console.created Console.world env chat_memory].

Lemma gets_ok {St A} (f : St → A) (st : St) : gets f st = (Ok (f st), st).
Proof. reflexivity. Qed.

Lemma in_kb_ok {A} (m : M (Env DB) A) s a e' :
  m (env (Console.world s)) = (Ok a, e') →
  Console.in_kb m s
  = (Ok a, Console.mkSession (Console.knowledge_base s) (Console.agent s)
             (Console.running s) (Console.stdout s) (Console.created s)
             (mkWorld (chat_memory (Console.world s)) e')).
Proof.
  intros Hm. unfold Console.in_kb, Console.in_world, in_env, zoom.
  by rewrite Hm.
Qed.

Lemma in_world_ok {A} (m : M (World DB) A) s a w' :
  m (Console.world s) = (Ok a, w') →
  Console.in_world m s
  = (Ok a, Console.mkSession (Console.knowledge_base s) (Console.agent s)
             (Console.running s) (Console.stdout s) (Console.created s) w').
Proof. intros Hm. unfold Console.in_world, zoom. by rewrite Hm. Qed.

Lemma getitem_ok (d : gmap string pyval) key v s :
  d !! key = Some v → Console.getitem d key s = (Ok v, s).
Proof. intros Hv. unfold Console.getitem. by rewrite Hv. Qed.

Lemma knowledge_base_attr_ok method s kb :
  Console.knowledge_base s = Some kb →
  Console.knowledge_base_attr method s = (Ok kb, s).
Proof.
  intros Hkb. unfold Console.knowledge_base_attr.
  erewrite bind_ok; [|apply gets_ok]. by rewrite Hkb.
Qed.

Ltac step_print := erewrite bind_ok; [|apply print_ok]; norm.
Ltac step_gets := erewrite bind_ok; [|apply gets_ok]; norm.
Ltac step_item H := erewrite bind_ok; [|apply getitem_ok; exact H]; norm.
Ltac last_print :=
  eexists; split; [apply print_ok|];
  split; [|reflexivity];
  unfold same_objects; norm; repeat split; rewrite <- ?app_assoc; by eexists.

Lemma display_help_plain s : plain Console.display_help s.
Proof. unfold plain, Console.display_help. last_print. Qed.

Lemma display_status_plain s :
  well_formed s → plain Console.display_status s.
Proof.
  intros Hwf. unfold plain, Console.display_status. step_gets.
  destruct (Console.agent s) as [a|] eqn:Ha; [|last_print].
  destruct (Hwf ltac:(by rewrite Ha)) as [kb Hkb].
  destruct (get_agent_status_keys a (Console.world s))
    as (status & v1 & v2 & v3 & v4 & v5
         & Hst & Hk1 & Hk2 & Hk3 & Hk4 & Hk5).
  do 2 step_print.
  erewrite bind_ok; [|apply in_world_ok; norm; exact Hst]; norm.
  step_print. step_item Hk1. step_print. step_item Hk2. step_print.
  step_item Hk3. step_print. step_item Hk4. step_print. step_item Hk5.
  step_print.
  erewrite bind_ok; [|apply knowledge_base_attr_ok; norm; exact Hkb]; norm.
  destruct (get_collection_info_keys kb (env (Console.world s)))
    as (info & e' & total & dir & Hinfo & Ht & Hd).
  erewrite bind_ok; [|apply in_kb_ok; norm; exact Hinfo]; norm.
  step_print. step_item Ht. step_print. step_item Hd. step_print.
  last_print.
Qed.

Lemma upload_document_plain file_path s :
  plain (Console.upload_document file_path) s.
Proof.
  unfold plain, Console.upload_document. step_gets.
  destruct (Console.knowledge_base s) as [kb|] eqn:Hkb; [|last_print].
  destruct (os_path_exists file_path); cbn [negb]; [|last_print].
  step_print.
  destruct (add_documents_eval kb [file_path] (env (Console.world s)))
    as (e' & Hadd & _).
  erewrite bind_ok; [|apply in_kb_ok; norm; exact Hadd]; norm.
  destruct (_ && _); last_print.
Qed.

Lemma search_knowledge_base_plain query s :
  plain (Console.search_knowledge_base query) s.
Proof.
  unfold plain, Console.search_knowledge_base. step_gets.
  destruct (Console.knowledge_base s) as [kb|] eqn:Hkb; [|last_print].
  step_print.
  destruct (search_total kb query 2 (env (Console.world s)))
    as (texts & e' & Hsearch).
  erewrite bind_ok; [|apply in_kb_ok; norm; exact Hsearch]; norm.
  destruct (Py.truthy texts); [|last_print].
  do 2 step_print.
  match goal with
  | |- context [Console.print_results ?j texts ?st] =>
      destruct (print_results_total texts j st)
        as (s' & Heq & Hsame & Hrun & _)
  end.
  exists s'. split; [exact Heq|]. split; [|exact Hrun].
  eapply same_objects_trans; [|exact Hsame].
  unfold same_objects; norm; repeat split; rewrite <- ?app_assoc; by eexists.
Qed.

Lemma clear_conversation_plain s : plain Console.clear_conversation s.
Proof.
  unfold plain, Console.clear_conversation. step_gets.
  destruct (Console.agent s) as [a|] eqn:Ha; [|last_print].
  erewrite bind_ok; [|apply in_world_ok; reflexivity]; norm.
  last_print.
Qed.

Lemma show_history_plain s : plain Console.show_history s.
Proof.
  unfold plain, Console.show_history. step_gets.
  destruct (Console.agent s) as [a|] eqn:Ha; [|last_print].
  erewrite bind_ok; [|apply in_world_ok; reflexivity]; norm.
  destruct (Py.truthy (chat_memory (Console.world s))); cbn [negb];
    [|last_print].
  do 2 step_print.
  match goal with
  | |- context [Console.print_messages ?j ?ms ?st] =>
      destruct (print_messages_total ms j st)
        as (s' & Heq & Hsame & Hrun & _)
  end.
  exists s'. split; [exact Heq|]. split; [|exact Hrun].
  eapply same_objects_trans; [|exact Hsame].
  unfold same_objects; norm; repeat split; rewrite <- ?app_assoc; by eexists.
Qed.

(** [process_command] never raises on a well-formed interface, keeps the
    objects it holds, and keeps the interface well-formed. *)
Lemma process_command_total command s :
  well_formed s →
  ∃ s', Console.process_command command s = (Ok tt, s') ∧ same_objects s s'.
Proof.
  intros Hwf.
  assert (Hplain : ∀ m, plain m s →
            ∃ s', m s = (Ok tt, s') ∧ same_objects s s').
  { intros m (s' & Heq & Hsame & _). eauto. }
  unfold Console.process_command.
  destruct (bool_decide _).
  { step_print. eexists. split; [reflexivity|].
    unfold same_objects; norm; repeat split; by eexists. }
  destruct (String.eqb _ "help"); [apply Hplain, display_help_plain|].
  destruct (String.eqb _ "status");
    [by apply Hplain, display_status_plain|].
  destruct (String.eqb _ "clear"); [apply Hplain, clear_conversation_plain|].
  destruct (String.eqb _ "history"); [apply Hplain, show_history_plain|].
  destruct (String.eqb _ "kb_info").
  { apply Hplain. unfold plain. step_gets.
    destruct (Console.knowledge_base s) as [kb|] eqn:Hkb; [|last_print].
    destruct (get_collection_info_keys kb (env (Console.world s)))
      as (info & e' & total & dir & Hinfo & Ht & Hd).
    erewrite bind_ok; [|apply in_kb_ok; norm; exact Hinfo]; norm.
    step_item Ht. last_print. }
  destruct (String.eqb _ "clear_kb").
  { apply Hplain. unfold plain. step_gets.
    destruct (Console.knowledge_base s) as [kb|] eqn:Hkb; [|last_print].
    destruct (clear_knowledge_base_total kb (env (Console.world s)))
      as (cleared & e' & Hclear).
    erewrite bind_ok; [|apply in_kb_ok; norm; exact Hclear]; norm.
    destruct cleared; last_print. }
  destruct (Str.startswith _ "upload ");
    [apply Hplain, upload_document_plain|].
  destruct (Str.startswith _ "search ");
    [apply Hplain, search_knowledge_base_plain|].
  destruct (Str.truthy _);
    [|exists s; split; [reflexivity | apply same_objects_refl]].
  apply Hplain. unfold plain. step_gets.
  destruct (Console.agent s) as [a|] eqn:Ha; [|last_print].
  step_print.
  destruct (process_message_total a (Console.normalize command)
              (Console.world s)) as (answer & w' & Hturn & _).
  unfold try_except.
  erewrite bind_ok; [|apply in_world_ok; norm; exact Hturn]; norm.
  rewrite print_ok.
  eexists. split; [reflexivity|]. split; [|reflexivity].
  unfold same_objects; norm; repeat split; rewrite <- ?app_assoc; by eexists.
Qed.

Lemma same_objects_well_formed s s' :
  same_objects s s' → well_formed s → well_formed s'.
Proof. intros (Hk & Ha & _) Hwf. unfold well_formed. by rewrite Hk, Ha. Qed.

Lemma main_loop_total inputs : ∀ s,
  well_formed s →
  ∃ s', Console.main_loop inputs s = (Ok tt, s') ∧ same_objects s s'.
Proof.
  induction inputs as [|[text|] rest IH]; intros s Hwf;
    cbn [Console.main_loop]; step_gets;
    (destruct (Console.running s);
     [|exists s; split; [reflexivity | apply same_objects_refl]]);
    step_print.
  - eexists. split; [apply print_ok|].
    unfold same_objects; norm; repeat split; rewrite <- ?app_assoc;
      by eexists.
  - set (s1 := Console.mkSession _ _ _ _ _ _).
    assert (Hwf1 : well_formed s1) by exact Hwf.
    assert (Hs1 : same_objects s s1) by (repeat split; by eexists).
    destruct (Str.truthy (Str.strip text)).
    + destruct (process_command_total (Str.strip text) s1 Hwf1)
        as (s2 & Hcmd & Hsame2).
      erewrite bind_ok; [|exact Hcmd].
      destruct (IH s2 (same_objects_well_formed _ _ Hsame2 Hwf1))
        as (s3 & Hloop & Hsame3).
      exists s3. split; [exact Hloop|].
      eauto using same_objects_trans.
    + erewrite bind_ok; [|reflexivity].
      destruct (IH s1 Hwf1) as (s3 & Hloop & Hsame3).
      exists s3. split; [exact Hloop|].
      eauto using same_objects_trans.
  - eexists. split; [apply print_ok|].
    unfold same_objects; norm; repeat split; rewrite <- ?app_assoc;
      by eexists.
Qed.

(** The verdict of [initialize_system] and the interface it leaves. *)
Lemma initialize_system_eval (cls : Config) s :
  ∃ s', Console.initialize_system cls s
        = (Ok (Str.truthy (default "" (GOOGLE_API_KEY cls))
               && is_ok (os_makedirs (CHROMA_PERSIST_DIRECTORY cls))
               && is_ok (os_makedirs (KNOWLEDGE_BASE_DIR cls))
               && is_ok (fst (open_knowledge_base
                                (CHROMA_PERSIST_DIRECTORY cls)
                                (store (env (Console.world s)))))
               && is_ok (open_agent (Console.config_dict cls))), s')
    ∧ (Console.agent s' = Console.agent s
       ∨ Console.knowledge_base s'
         = Some (KnowledgeBaseManager_init (CHROMA_PERSIST_DIRECTORY cls)))
    ∧ (Console.knowledge_base s' = Console.knowledge_base s
       ∨ Console.knowledge_base s'
         = Some (KnowledgeBaseManager_init (CHROMA_PERSIST_DIRECTORY cls))).
Proof.
  unfold Console.initialize_system, Console.validate, Console.makedirs,
    Console.new_knowledge_base, Console.new_agent, Console.set_agent,
    Console.set_knowledge_base, Console.print, Console.in_kb,
    Console.in_world, in_env, on_store, zoom.
  unfold try_except, mbind, M_bind, mret, M_ret, bind, ret, raise, modify.
  norm.
  destruct (Str.truthy (default "" (GOOGLE_API_KEY cls))); cbn [negb andb];
    [|eexists; split; [reflexivity|]; norm; tauto].
  destruct (os_makedirs (CHROMA_PERSIST_DIRECTORY cls)) as [[]|e1];
    cbn [is_ok andb]; norm;
    [|eexists; split; [reflexivity|]; norm; tauto].
  destruct (os_makedirs (KNOWLEDGE_BASE_DIR cls)) as [[]|e2];
    cbn [is_ok andb]; norm;
    [|eexists; split; [reflexivity|]; norm; tauto].
  cbn [store].
  destruct (open_knowledge_base (CHROMA_PERSIST_DIRECTORY cls)
              (store (env (Console.world s)))) as [[[]|e3] db'];
    cbn [fst is_ok andb]; norm;
    [|eexists; split; [reflexivity|]; norm; tauto].
  destruct (open_agent (Console.config_dict cls)) as [[]|e4];
    cbn [is_ok andb]; norm;
    eexists; (split; [reflexivity|]); norm; tauto.
Qed.

Lemma run_total (cls : Config) inputs s :
  well_formed s → ∃ s', Console.run cls inputs s = (Ok tt, s').
Proof.
  intros Hwf. unfold Console.run. do 2 step_print.
  set (s0 := Console.mkSession _ _ _ _ _ _).
  assert (Hwf0 : well_formed s0) by exact Hwf.
  destruct (initialize_system_eval cls s0) as (s1 & Hinit & Hagent & Hkb).
  erewrite bind_ok; [|exact Hinit].
  destruct (_ && _); cbn [negb]; [|by eexists].
  erewrite bind_ok; [|reflexivity].
  set (s2 := Console.mkSession _ _ _ _ _ _).
  assert (Hwf2 : well_formed s2).
  { unfold well_formed, s2; norm.
    destruct Hagent as [Ha|Hk]; [|by rewrite Hk].
    destruct Hkb as [Hk|Hk]; [|by rewrite Hk].
    rewrite Ha, Hk. exact Hwf0. }
  destruct (main_loop_total inputs s2 Hwf2) as (s3 & Hloop & _).
  eauto.
Qed.

Lemma is_chat_dispatch command :
  is_chat command = true →
  bool_decide (command ∈ ["quit"; "exit"]) = false
  ∧ String.eqb command "help" = false
  ∧ String.eqb command "status" = false
  ∧ String.eqb command "clear" = false
  ∧ String.eqb command "history" = false
  ∧ String.eqb command "kb_info" = false
  ∧ String.eqb command "clear_kb" = false
  ∧ Str.startswith command "upload " = false
  ∧ Str.startswith command "search " = false
  ∧ Str.truthy command = true.
Proof.
  unfold is_chat. rewrite !andb_true_iff, !negb_true_iff.
  intros [[[Hwords Hupload] Hsearch] Htruthy].
  apply bool_decide_eq_false in Hwords.
  assert (Hnot : ∀ word,
            word ∈ ["quit"; "exit"; "help"; "status"; "clear"; "history";
                    "kb_info"; "clear_kb"] → String.eqb command word = false).
  { intros word Hword. destruct (String.eqb_spec command word) as [->|];
      [by destruct Hwords | reflexivity]. }
  split.
  { apply bool_decide_eq_false. intros Hin. apply Hwords.
    rewrite !elem_of_cons in *. tauto. }
  repeat split; try assumption; apply Hnot; rewrite !elem_of_cons; tauto.
Qed.

(** Free text is handed to the agent stripped and in lower case. *)
Theorem chat_reaches_agent_normalized command a s :
  Str.is_ascii command = true →
  Console.agent s = Some a →
  is_chat (Console.normalize command) = true →
  ∃ answer w',
    process_message a (Console.normalize command) (Console.world s)
    = (Ok answer, w')
    ∧ last (chat_memory w') = Some (AIMessage answer)
    ∧ Console.process_command command s
      = (Ok tt,
         Console.mkSession (Console.knowledge_base s) (Console.agent s)
           (Console.running s)
           (Console.stdout s ++ [Py.nl +:+ "🤖 AI Agent is thinking...";
                                 Py.nl +:+ "🤖 AI Agent: " +:+ answer])
           (Console.created s) w').
Proof.
  intros _ Ha Hchat.
  destruct (process_message_total a (Console.normalize command)
              (Console.world s)) as (answer & w' & Hturn & Hlast).
  exists answer, w'. split; [exact Hturn|]. split; [exact Hlast|].
  unfold Console.process_command.
  destruct (is_chat_dispatch _ Hchat)
    as (-> & -> & -> & -> & -> & -> & -> & -> & -> & ->).
  step_gets. rewrite Ha. step_print. unfold try_except.
  erewrite bind_ok; [|apply in_world_ok; norm; exact Hturn]; norm.
  rewrite print_ok. cbv beta iota. norm. by rewrite Ha, <- app_assoc.
Qed.

Lemma rstrip_app (u t : string) :
  Str.rstrip t ≠ "" → Str.rstrip (u +:+ t) = u +:+ Str.rstrip t.
Proof.
  intros Ht. induction u as [|c u IH]; [reflexivity|].
  change (Str.rstrip (String c (u +:+ t)) = String c (u +:+ Str.rstrip t)).
  simpl. rewrite IH.
  destruct (u +:+ Str.rstrip t) eqn:Happ; [|reflexivity].
  destruct u; [|discriminate]. by destruct Ht.
Qed.

Lemma startswith_nil (t : string) : Str.startswith t "" = true.
Proof. by destruct t. Qed.

Lemma upload_line p :
  "upload " +:+ p
  = String "u" (String "p" (String "l" (String "o" (String "a"
      (String "d" (String " " p)))))).
Proof. reflexivity. Qed.

Lemma normalize_upload p :
  Str.lstrip p = p → Str.rstrip p = p → p ≠ "" →
  Console.normalize ("upload " +:+ p) = "upload " +:+ Py.lower p.
Proof.
  intros Hl Hr Hne. unfold Console.normalize, Str.strip.
  assert (Hls : Str.lstrip ("upload " +:+ p) = "upload " +:+ p)
    by reflexivity.
  rewrite Hls, rstrip_app, Hr by (by rewrite Hr).
  by rewrite lower_app.
Qed.

(** [upload] looks for the path in lower case, whatever was typed. *)
Theorem upload_uses_lowercase_path p kb s :
  Str.is_ascii p = true →
  Str.lstrip p = p → Str.rstrip p = p → p ≠ "" →
  Console.knowledge_base s = Some kb →
  Console.process_command ("upload " +:+ p) s
  = Console.upload_document (Py.lower p) s
  ∧ ∃ s', Console.upload_document (Py.lower p) s = (Ok tt, s')
      ∧ if os_path_exists (Py.lower p) then
          env (Console.world s')
          = snd (add_documents kb [Py.lower p] (env (Console.world s)))
        else
          Console.world s' = Console.world s
          ∧ Console.stdout s'
            = Console.stdout s ++ ["❌ File not found: " +:+ Py.lower p].
Proof.
  intros _ Hl Hr Hne Hkb. split.
  - unfold Console.process_command.
    rewrite (normalize_upload p Hl Hr Hne), upload_line.
    rewrite bool_decide_eq_false_2; cbn [String.eqb Ascii.eqb Bool.eqb
      Str.startswith andb Str.drop].
    + rewrite startswith_nil. unfold Str.strip.
      by rewrite lstrip_lower, Hl, rstrip_lower, Hr.
    + rewrite !elem_of_cons, elem_of_nil. intros [?|[?|[]]]; discriminate.
  - unfold Console.upload_document. step_gets. rewrite Hkb.
    destruct (os_path_exists (Py.lower p)); cbn [negb].
    + step_print.
      destruct (add_documents_eval kb [Py.lower p] (env (Console.world s)))
        as (e' & Hadd & _).
      erewrite bind_ok; [|apply in_kb_ok; norm; exact Hadd]; norm.
      rewrite Hadd.
      destruct (_ && _); eexists; (split; [apply print_ok|]); reflexivity.
    + eexists. split; [apply print_ok|]. by split.
Qed.

(** Before the system is initialised no command reaches the agent or the
    knowledge base. *)
Theorem uninitialised_commands_only_print command s :
  Console.knowledge_base s = None →
  Console.agent s = None →
  ∃ s', Console.process_command command s = (Ok tt, s')
        ∧ Console.world s' = Console.world s
        ∧ Console.created s' = Console.created s.
Proof.
  intros Hkb Ha. unfold Console.process_command.
  repeat match goal with
  | |- context [if ?b then _ else _] => destruct b
  end;
  unfold Console.display_help, Console.display_status,
    Console.clear_conversation, Console.show_history,
    Console.upload_document, Console.search_knowledge_base;
  try step_print; try step_gets; rewrite ?Hkb, ?Ha;
  eexists; (split; [reflexivity|]); by split.
Qed.

(** [initialize_system] never raises.  It returns [True] exactly when the
    key is set and the two directories, the knowledge base and the agent
    could all be made, and then the interface holds both objects, the
    agent's memory is empty and the two directories were created, in that
    order.  Otherwise it returns [False] and installs no agent, and the
    conversation memory is as it was. *)
Theorem initialize_system_verdict (cls : Config) (w : World DB) :
  ∃ s', Console.initialize_system cls (Console.ConsoleInterface_init w)
        = (Ok (Str.truthy (default "" (GOOGLE_API_KEY cls))
               && is_ok (os_makedirs (CHROMA_PERSIST_DIRECTORY cls))
               && is_ok (os_makedirs (KNOWLEDGE_BASE_DIR cls))
               && is_ok (fst (open_knowledge_base
                                (CHROMA_PERSIST_DIRECTORY cls)
                                (store (env w))))
               && is_ok (open_agent (Console.config_dict cls))), s')
    ∧ if Str.truthy (default "" (GOOGLE_API_KEY cls))
         && is_ok (os_makedirs (CHROMA_PERSIST_DIRECTORY cls))
         && is_ok (os_makedirs (KNOWLEDGE_BASE_DIR cls))
         && is_ok (fst (open_knowledge_base (CHROMA_PERSIST_DIRECTORY cls)
                          (store (env w))))
         && is_ok (open_agent (Console.config_dict cls))
      then
        Console.knowledge_base s'
        = Some (KnowledgeBaseManager_init (CHROMA_PERSIST_DIRECTORY cls))
        ∧ Console.agent s'
          = Some (CustomerSupportAgent_init
                    (KnowledgeBaseManager_init (CHROMA_PERSIST_DIRECTORY cls))
                    (Console.config_dict cls))
        ∧ chat_memory (Console.world s') = []
        ∧ Console.created s'
          = [CHROMA_PERSIST_DIRECTORY cls; KNOWLEDGE_BASE_DIR cls]
      else
        Console.agent s' = None
        ∧ chat_memory (Console.world s') = chat_memory w.
Proof.
  unfold Console.initialize_system, Console.validate, Console.makedirs,
    Console.new_knowledge_base, Console.new_agent, Console.set_agent,
    Console.set_knowledge_base, Console.print, Console.ConsoleInterface_init,
    Console.in_kb, Console.in_world, in_env, on_store, zoom.
  unfold try_except, mbind, M_bind, mret, M_ret, bind, ret, raise, modify.
  norm.
  destruct (Str.truthy (default "" (GOOGLE_API_KEY cls))); cbn [negb andb];
    [|eexists; split; [reflexivity|]; norm; tauto].
  destruct (os_makedirs (CHROMA_PERSIST_DIRECTORY cls)) as [[]|e1];
    cbn [is_ok andb]; norm;
    [|eexists; split; [reflexivity|]; norm; tauto].
  destruct (os_makedirs (KNOWLEDGE_BASE_DIR cls)) as [[]|e2];
    cbn [is_ok andb]; norm;
    [|eexists; split; [reflexivity|]; norm; tauto].
  cbn [store].
  destruct (open_knowledge_base (CHROMA_PERSIST_DIRECTORY cls)
              (store (env w))) as [[[]|e3] db'];
    cbn [fst is_ok andb]; norm;
    [|eexists; split; [reflexivity|]; norm; tauto].
  destruct (open_agent (Console.config_dict cls)) as [[]|e4];
    cbn [is_ok andb]; norm;
    eexists; (split; [reflexivity|]); norm; tauto.
Qed.

(** Without an API key the console stops at start-up: [run] prints the
    welcome, the start and the error, creates no directory, builds neither
    object, reads no input and leaves the world as it was. *)
Theorem run_without_key (cls : Config) inputs (w : World DB) :
  default "" (GOOGLE_API_KEY cls) = "" →
  Console.run cls inputs (Console.ConsoleInterface_init w)
  = (Ok tt,
     Console.mkSession None None false
       ["🤖 Welcome to AI Customer Support Agent!"; Console.rule;
        "🚀 Initializing AI Customer Support System...";
        "❌ Error initializing system: GOOGLE_API_KEY is required. "
        +:+ "Please set it in your .env file"] [] w).
Proof.
  intros Hkey.
  unfold Console.run, Console.initialize_system, Console.validate,
    Console.print, Console.ConsoleInterface_init.
  unfold try_except, mbind, M_bind, mret, M_ret, bind, ret, raise, modify.
  norm. rewrite Hkey. reflexivity.
Qed.

(** The console never ends with an uncaught error: for every configuration
    and every sequence of inputs, [run] on a fresh interface returns. *)
Theorem run_never_raises (cls : Config) inputs (w : World DB) :
  ∃ s', Console.run cls inputs (Console.ConsoleInterface_init w)
        = (Ok tt, s').
Proof.
  apply run_total. unfold well_formed, Console.ConsoleInterface_init; norm.
  by intros [a Ha].
Qed.

End ConsoleCommands.

(** ** The extension of a path *)

Section SplitextFacts.
Context {DB : Type} `{!Platform}.

Lemma append_cons c (a b : string) : String c a +:+ b = String c (a +:+ b).
Proof. reflexivity. Qed.

Lemma append_assoc (a b c : string) : (a +:+ b) +:+ c = a +:+ b +:+ c.
Proof.
  induction a as [|x a IH]; [reflexivity|].
  by rewrite !append_cons, IH.
Qed.

Lemma length_append (a b : string) :
  String.length (a +:+ b) = (String.length a + String.length b)%nat.
Proof.
  induction a as [|x a IH]; [reflexivity|].
  rewrite append_cons. simpl. by rewrite IH.
Qed.

Lemma rfind_from_app c (a b : string) : ∀ i last,
  Py.rfind_from c (a +:+ b) i last
  = Py.rfind_from c b (i + Z.of_nat (String.length a))
      (Py.rfind_from c a i last).
Proof.
  induction a as [|x a IH]; intros i last.
  - simpl. by rewrite Z.add_0_r.
  - rewrite append_cons. cbn [Py.rfind_from String.length]. rewrite IH.
    f_equal. lia.
Qed.

Lemma rfind_from_absent c (b : string) : ∀ i last,
  Str.has_char c b = false → Py.rfind_from c b i last = last.
Proof.
  induction b as [|x b IH]; intros i last Hb; [reflexivity|].
  simpl in *. apply orb_false_iff in Hb as [Hx Hb].
  rewrite Hx. by apply IH.
Qed.

Lemma has_char_app c (a b : string) :
  Str.has_char c (a +:+ b) = Str.has_char c a || Str.has_char c b.
Proof.
  induction a as [|x a IH]; [reflexivity|].
  rewrite append_cons. simpl. by rewrite IH, orb_assoc.
Qed.

Lemma get_app_r (a b : string) n :
  String.get (String.length a + n) (a +:+ b) = String.get n b.
Proof. induction a as [|x a IH]; [reflexivity | exact IH]. Qed.

Lemma has_non_dot_spec (b c : string) : ∀ pre : string,
  Py.has_non_dot ((pre +:+ b) +:+ c) (String.length pre) (String.length b)
  = negb (Str.only_dots b).
Proof.
  induction b as [|x b IH]; intros pre; [reflexivity|].
  cbn [String.length Py.has_non_dot Str.only_dots].
  rewrite append_assoc.
  replace (String.length pre) with (String.length pre + 0)%nat at 1 by lia.
  rewrite get_app_r. rewrite append_cons. cbn [String.get].
  destruct (Ascii.eqb x "."); [|reflexivity].
  cbn [andb].
  specialize (IH (pre +:+ String x "")).
  rewrite length_append in IH. cbn [String.length] in IH.
  replace (String.length pre + 1)%nat with (S (String.length pre)) in IH
    by lia.
  rewrite <- IH. f_equal.
  by rewrite !append_assoc.
Qed.

Lemma substring_prefix (a b : string) :
  String.substring 0 (String.length a) (a +:+ b) = a.
Proof.
  induction a as [|x a IH]; [by destruct b|].
  rewrite append_cons. simpl. by rewrite IH.
Qed.

Lemma substring_all (b : string) :
  String.substring 0 (String.length b) b = b.
Proof. induction b as [|y b IH]; [reflexivity|]. simpl. by rewrite IH. Qed.

Lemma substring_suffix (a b : string) :
  String.substring (String.length a) (String.length b) (a +:+ b) = b.
Proof.
  induction a as [|x a IH]; [apply substring_all | exact IH].
Qed.

Lemma rfind_sep_of_dir (dir : string) :
  dir = "" ∨ (∃ d, dir = d +:+ "/") →
  Py.rfind "/" dir + 1 = Z.of_nat (String.length dir).
Proof.
  intros [->|[d ->]]; [reflexivity|].
  unfold Py.rfind. rewrite rfind_from_app, length_append.
  cbn [Py.rfind_from String.length Ascii.eqb Bool.eqb]. simpl. lia.
Qed.

(** The split of a path whose last component is [name + "." + suffix]. *)
Lemma splitext_at_dot (dir name suffix : string) :
  dir = "" ∨ (∃ d, dir = d +:+ "/") →
  Str.has_char "/" name = false →
  Str.has_char "/" suffix = false →
  Str.has_char "." suffix = false →
  Py.splitext (dir +:+ name +:+ String "." suffix)
  = if Str.only_dots name
    then (dir +:+ name +:+ String "." suffix, "")
    else (dir +:+ name, String "." suffix).
Proof.
  intros Hdir Hname Hsuffix Hdot.
  pose proof (rfind_sep_of_dir dir Hdir) as Hsep.
  unfold Py.splitext.
  assert (Hs : Py.rfind "/" (dir +:+ name +:+ String "." suffix)
               = Py.rfind "/" dir).
  { unfold Py.rfind. rewrite rfind_from_app. apply rfind_from_absent.
    rewrite has_char_app, Hname. simpl. exact Hsuffix. }
  assert (Hd : Py.rfind "." (dir +:+ name +:+ String "." suffix)
               = Z.of_nat (String.length (dir +:+ name))).
  { unfold Py.rfind. rewrite <- append_assoc, rfind_from_app.
    cbn [Py.rfind_from Ascii.eqb Bool.eqb].
    rewrite rfind_from_absent by exact Hdot. lia. }
  rewrite Hs, Hd.
  replace (Py.rfind "/" dir <? Z.of_nat (String.length (dir +:+ name)))
    with true by (symmetry; apply Z.ltb_lt; rewrite length_append; lia).
  replace (Z.to_nat (Py.rfind "/" dir + 1)) with (String.length dir) by lia.
  replace (Z.to_nat (Z.of_nat (String.length (dir +:+ name))
                     - (Py.rfind "/" dir + 1)))
    with (String.length name) by (rewrite length_append; lia).
  rewrite <- (append_assoc dir name), has_non_dot_spec. cbn [andb].
  destruct (Str.only_dots name); cbn [negb]; [reflexivity|].
  rewrite Nat2Z.id, substring_prefix.
  replace (String.length ((dir +:+ name) +:+ String "." suffix)
           - String.length (dir +:+ name))%nat
    with (String.length (String "." suffix))
    by (rewrite (length_append (dir +:+ name)); lia).
  by rewrite substring_suffix.
Qed.

Lemma only_dots_no_slash (dots : string) :
  Str.only_dots dots = true → Str.has_char "/" dots = false.
Proof.
  induction dots as [|x dots IH]; [reflexivity|].
  simpl. intros [Hx Hdots]%andb_true_iff.
  apply Ascii.eqb_eq in Hx as ->. simpl. by apply IH.
Qed.

(** The extension is read off the name without regard to case: a file
    whose name is a proper stem, a dot and a suffix without dot or slash,
    in whatever directory, has the lower-cased suffix as its extension, so
    [NOTES.TXT] is loaded like [notes.txt]. *)
Theorem extension_of_named_file (dir name suffix : string) :
  dir = "" ∨ (∃ d, dir = d +:+ "/") →
  Str.has_char "/" name = false →
  Str.only_dots name = false →
  Str.has_char "/" suffix = false →
  Str.has_char "." suffix = false →
  Py.splitext (dir +:+ name +:+ "." +:+ suffix)
  = (dir +:+ name, "." +:+ suffix)
  ∧ file_extension_of (dir +:+ name +:+ "." +:+ suffix)
    = "." +:+ Py.lower suffix.
Proof.
  intros Hdir Hname Hstem Hsuffix Hdot.
  pose proof (splitext_at_dot dir name suffix Hdir Hname Hsuffix Hdot)
    as Hsplit.
  rewrite Hstem in Hsplit.
  change ("." +:+ suffix) with (String "." suffix).
  split; [exact Hsplit|].
  unfold file_extension_of. by rewrite Hsplit.
Qed.

(** A file named by an extension alone, such as [.txt] or [docs/.md], has
    no extension for [os.path.splitext]: it is rejected as unsupported and
    never contributes a chunk. *)
Theorem dot_files_are_not_loaded (self : KnowledgeBaseManager)
  (dir dots suffix : string) (w : Env DB) :
  dir = "" ∨ (∃ d, dir = d +:+ "/") →
  Str.only_dots dots = true →
  Str.has_char "/" suffix = false →
  Str.has_char "." suffix = false →
  file_extension_of (dir +:+ dots +:+ "." +:+ suffix) = ""
  ∧ file_chunks self (dir +:+ dots +:+ "." +:+ suffix) = []
  ∧ fst (load_document self (dir +:+ dots +:+ "." +:+ suffix) w) = Ok [].
Proof.
  intros Hdir Hdots Hsuffix Hdot.
  pose proof (splitext_at_dot dir dots suffix Hdir
                (only_dots_no_slash dots Hdots) Hsuffix Hdot) as Hsplit.
  rewrite Hdots in Hsplit.
  change ("." +:+ suffix) with (String "." suffix).
  assert (Hext : file_extension_of (dir +:+ dots +:+ String "." suffix) = "")
    by (unfold file_extension_of; by rewrite Hsplit).
  assert (Hnone : documents_of (dir +:+ dots +:+ String "." suffix) = [])
    by (unfold documents_of; by rewrite Hext).
  split; [exact Hext|]. split.
  - unfold file_chunks. rewrite Hnone. by destruct (os_path_exists _).
  - destruct (load_document_eval self (dir +:+ dots +:+ String "." suffix) w)
      as (w' & -> & _).
    simpl. by rewrite Hnone.
Qed.

End SplitextFacts.

(** ** The code on the demo installation *)

(** The extension the loader dispatches on. *)
Example file_extension_examples :
  file_extension_of "docs/FAQ.TXT" = ".txt"
  ∧ file_extension_of "archive.tar.gz" = ".gz"
  ∧ file_extension_of ".hidden" = ""
  ∧ file_extension_of "v1.2/readme" = ""
  ∧ file_extension_of "notes.Md" = ".md".
Proof. repeat split. Qed.

#[local] Existing Instance Demo.mem_store.
#[local] Existing Instance Demo.platform.

(** A batch of one readable and one missing path: the readable file is
    ingested, the missing one leaves a warning, the verdict is [True]. *)
Example add_documents_valid_and_missing :
  let run := add_documents Demo.kb ["kb/faq.txt"; "kb/missing.txt"]
                           (Demo.env_of Demo.empty_store) in
  fst run = Ok true
  ∧ Demo.collection (store (snd run)) = Some [Demo.faq]
  ∧ mkLog WARNING "File not found: kb/missing.txt" ∈ log (snd run).
Proof.
  vm_compute. split; [reflexivity | split; [reflexivity|]].
  do 2 apply list_elem_of_further. apply list_elem_of_here.
Qed.

(** C2 as stated fails: with the embedding service down the batch does
    produce a chunk, and [add_documents] returns [False]. *)
Lemma add_documents_store_failure :
  batch_chunks Demo.kb ["kb/faq.txt"] = [Demo.faq]
  ∧ fst (add_documents Demo.kb ["kb/faq.txt"]
                       (Demo.env_of Demo.offline_store)) = Ok false
  ∧ ¬ (fst (add_documents Demo.kb ["kb/faq.txt"]
                          (Demo.env_of Demo.offline_store)) = Ok true
       ↔ batch_chunks Demo.kb ["kb/faq.txt"] ≠ []).
Proof.
  split; [reflexivity | split; [reflexivity|]].
  intros [_ Hback].
  assert (Hchunks : batch_chunks Demo.kb ["kb/faq.txt"] ≠ [])
    by (vm_compute; discriminate).
  apply Hback in Hchunks. vm_compute in Hchunks. discriminate.
Qed.

Lemma unsupported_file_skipped_witness :
  let chunks := List.flat_map (file_chunks Demo.kb)
                  (["kb/faq.txt"] ++ ["kb/guide.md"]) in
  let run := add_documents Demo.kb
               (["kb/faq.txt"] ++ "kb/notes.xyz" :: ["kb/guide.md"])
               (Demo.env_of Demo.empty_store) in
  fst (load_document Demo.kb "kb/notes.xyz" (Demo.env_of Demo.empty_store))
  = Ok []
  ∧ mkLog ERROR ("Error loading document " +:+ "kb/notes.xyz"
                 +:+ ": Unsupported file type: "
                 +:+ file_extension_of "kb/notes.xyz")
    ∈ log (snd (load_document Demo.kb "kb/notes.xyz"
                  (Demo.env_of Demo.empty_store)))
  ∧ fst (gather_chunks Demo.kb
           (["kb/faq.txt"] ++ "kb/notes.xyz" :: ["kb/guide.md"]) []
           (Demo.env_of Demo.empty_store)) = Ok chunks
  ∧ file_chunks Demo.kb "kb/guide.md"
    = (if os_path_exists "kb/guide.md" then
         match fst (load_document Demo.kb "kb/guide.md"
                      (Demo.env_of Demo.stocked_store)) with
         | Ok documents =>
             if Py.truthy documents then
               match fst (process_documents Demo.kb documents
                            (Demo.env_of Demo.offline_store)) with
               | Ok pieces => pieces
               | Raise _ => []
               end
             else []
         | Raise _ => []
         end
       else [])
  ∧ fst run = Ok (Py.truthy chunks
                  && stored chunks (store (Demo.env_of Demo.empty_store)))
  ∧ store (snd run)
    = (if Py.truthy chunks
       then snd (write_chunks chunks (store (Demo.env_of Demo.empty_store)))
       else store (Demo.env_of Demo.empty_store))
  ∧ fst run = fst (add_documents Demo.kb (["kb/faq.txt"] ++ ["kb/guide.md"])
                     (Demo.env_of Demo.empty_store))
  ∧ store (snd run)
    = store (snd (add_documents Demo.kb (["kb/faq.txt"] ++ ["kb/guide.md"])
                    (Demo.env_of Demo.empty_store))).
Proof.
  refine (unsupported_file_skipped Demo.kb ["kb/faq.txt"] ["kb/guide.md"]
            "kb/notes.xyz" "kb/guide.md" (Demo.env_of Demo.empty_store)
            (Demo.env_of Demo.stocked_store)
            (Demo.env_of Demo.offline_store) _).
  apply (bool_decide_unpack _). vm_compute. exact I.
Defined.

(** The same batch, evaluated: the two supported files are in the store, in
    their order, the verdict is [True], and the file in between left its
    error in the log. *)
Example unsupported_file_in_batch :
  let run := add_documents Demo.kb
               ["kb/faq.txt"; "kb/notes.xyz"; "kb/guide.md"]
               (Demo.env_of Demo.empty_store) in
  fst run = Ok true
  ∧ Demo.collection (store (snd run)) = Some [Demo.faq; Demo.guide]
  ∧ mkLog ERROR ("Error loading document kb/notes.xyz: "
                 +:+ "Unsupported file type: .xyz") ∈ log (snd run).
Proof.
  vm_compute. split; [reflexivity | split; [reflexivity|]].
  do 2 apply list_elem_of_further. apply list_elem_of_here.
Qed.

(** A store that cannot be written: the chunk is accumulated, the verdict
    is [False] and the error of the write is the last record of the log. *)
Example add_documents_logs_store_failure :
  let run := add_documents Demo.kb ["kb/faq.txt"]
               (Demo.env_of Demo.offline_store) in
  fst (gather_chunks Demo.kb ["kb/faq.txt"] []
         (Demo.env_of Demo.offline_store)) = Ok [Demo.faq]
  ∧ fst run = Ok false
  ∧ last (log (snd run))
    = Some (mkLog ERROR ("Error adding documents: "
                         +:+ "embedding service unreachable"))
  ∧ store (snd run) = Demo.offline_store.
Proof. repeat split. Qed.

(** Chunking with windows of 500 characters that overlap by 100: a text of
    1200 characters is cut at 0, 400 and 800, and a second run in the world
    the first one left gives the same chunks. *)
Example chunking_of_a_long_text :
  let text := Str.times "0123456789" 120 in
  let process := @process_documents Demo.MemStore Demo.windowed_platform
                   Demo.kb [Demo.doc text] in
  let first := process (Demo.env_of Demo.empty_store) in
  fst first
  = Ok (Demo.doc <$> [String.substring 0 500 text;
                      String.substring 400 500 text;
                      String.substring 800 400 text])
  ∧ fst (process (snd first)) = fst first
  ∧ fst (process (Demo.env_of Demo.offline_store)) = fst first.
Proof. vm_compute. repeat split. Qed.

Lemma search_bounded_or_empty_witness :
  ∃ texts w',
    search Demo.kb "Returns" 2 (Demo.env_of Demo.stocked_store)
    = (Ok texts, w')
    ∧ Z.of_nat (length texts) ≤ 2
    ∧ texts = page_content <$> [Demo.faq].
Proof.
  refine (search_bounded_or_empty Demo.kb "Returns" 2
            (Demo.env_of Demo.stocked_store) _ _).
  - lia.
  - intros docs s' Hfound. vm_compute in Hfound.
    injection Hfound as <- _. simpl. lia.
Defined.

(** C4.  The manager as [__init__] builds it: the client's settings leave
    [allow_reset] at [False], so with one chunk in the collection the reset
    that [clear_knowledge_base] attempts is refused.  The call returns
    [False] and logs the error; the chunk is still counted and still found,
    and a repeated call fails in the same way. *)
Theorem clear_knowledge_base_refused :
  let shipped := Demo.opened_with KnowledgeBaseManager_settings
                   (Some [Demo.faq]) in
  let run := clear_knowledge_base Demo.kb (Demo.env_of shipped) in
  allow_reset KnowledgeBaseManager_settings = false
  ∧ run = (Ok false,
           mkEnv shipped
                 [mkLog ERROR ("Error clearing knowledge base: "
                               +:+ "Resetting is not allowed by this "
                               +:+ "configuration")] 0)
  ∧ fst run ≠ Ok true
  ∧ (∃ info, fst (get_collection_info Demo.kb (snd run)) = Ok info
             ∧ info !! "total_documents" = Some (PInt 1))
  ∧ fst (search Demo.kb "Returns" 2 (snd run))
    = Ok ["Returns are accepted within 30 days."]
  ∧ fst (clear_knowledge_base Demo.kb (snd run)) = Ok false.
Proof.
  split; [reflexivity|].
  split; [reflexivity | split; [discriminate|]].
  split; [|split; reflexivity].
  eexists. split; reflexivity.
Qed.

(** With a client that allows it, the reset goes through: the collection is
    gone, the count reported is 0 and nothing is found. *)
Example clear_knowledge_base_allowed :
  let run := clear_knowledge_base Demo.kb (Demo.env_of Demo.stocked_store) in
  fst run = Ok true
  ∧ Demo.collection (store (snd run)) = None
  ∧ (∃ info, fst (get_collection_info Demo.kb (snd run)) = Ok info
             ∧ info !! "total_documents" = Some (PInt 0))
  ∧ fst (search Demo.kb "Returns" 2 (snd run)) = Ok [].
Proof.
  split; [reflexivity | split; [reflexivity|]].
  split; [|reflexivity].
  eexists. split; reflexivity.
Qed.

Lemma process_message_apologises_witness :
  ∃ apology history w',
    process_message (Demo.agent_with Demo.unreachable_model) "hello"
                    (Demo.world_of Demo.stocked_store) = (Ok apology, w')
    ∧ apology = "I apologize, but I encountered an error while processing "
                +:+ "your request. Please try again or contact human "
                +:+ "support if the issue persists. Error: "
                +:+ "model unreachable"
    ∧ fst (get_conversation_history
             (Demo.agent_with Demo.unreachable_model) w') = Ok history
    ∧ history = [HumanMessage "hello"] ++ [AIMessage apology]
    ∧ last history = Some (AIMessage apology).
Proof.
  apply (process_message_apologises
           (Demo.agent_with Demo.unreachable_model) "hello"
           (Demo.world_of Demo.stocked_store) "model unreachable"
           (mkWorld [HumanMessage "hello"]
                    (mkEnv Demo.stocked_store [] 1))).
  vm_compute. reflexivity.
Defined.

Lemma search_tool_answers_witness :
  (∃ texts observation w',
     fst (search Demo.kb "warranty" 2 (Demo.env_of Demo.stocked_store))
     = Ok texts
     ∧ search_knowledge_base Demo.kb "warranty"
                             (Demo.env_of Demo.stocked_store)
       = (Ok observation, w')
     ∧ run_tool (_create_tools Demo.kb) "search_knowledge_base"
                {["query" := "warranty"]} (Demo.env_of Demo.stocked_store)
       = (Ok observation, w')
     ∧ (length texts ≤ 2)%nat
     ∧ match texts with
       | [] => observation
               = "No relevant information found in the knowledge base."
       | _ :: _ => observation
                   = "Found relevant information:" +:+ Py.nl
                     +:+ Py.join (Py.nl +:+ Py.nl) texts
       end)
  ∧ ∃ answer world',
      process_message (Demo.agent_with Demo.searching_model) "warranty"
                      (Demo.world_of Demo.stocked_store)
      = (Ok answer, world').
Proof.
  refine (@search_tool_answers _ _ _ Demo.searching_model Demo.kb ∅
            "warranty" (Demo.env_of Demo.stocked_store) "warranty"
            (Demo.world_of Demo.stocked_store) _).
  intros docs s' Hfound. vm_compute in Hfound.
  injection Hfound as <- _. simpl. lia.
Defined.

(** The whole turn on the demo: the model asks for a search that finds
    nothing, the tool hands back the sentinel, and the turn ends with the
    model's answer. *)
Example turn_with_empty_search :
  fst (process_message (Demo.agent_with Demo.searching_model) "warranty"
                       (Demo.world_of Demo.stocked_store))
  = Ok "No relevant information found in the knowledge base.".
Proof. reflexivity. Qed.

Lemma successful_turn_adds_four_witness :
  ∃ w' status w'',
    process_message (Demo.agent_with Demo.searching_model) "power"
                    (Demo.world_of Demo.stocked_store)
    = (Ok ("Found relevant information:" +:+ Py.nl
           +:+ "Hold the power button to restart."), w')
    ∧ chat_memory w'
      = [] ++ [HumanMessage "power"; HumanMessage "power";
               AIMessage ("Found relevant information:" +:+ Py.nl
                          +:+ "Hold the power button to restart.");
               AIMessage ("Found relevant information:" +:+ Py.nl
                          +:+ "Hold the power button to restart.")]
    ∧ length (chat_memory w') = (0 + 4)%nat
    ∧ get_agent_status (Demo.agent_with Demo.searching_model) w'
      = (Ok status, w'')
    ∧ status !! "memory_length" = Some (PInt (0 + 4)).
Proof.
  refine (@successful_turn_adds_four _ _ _ Demo.searching_model Demo.kb ∅
            "power" (Demo.world_of Demo.stocked_store)
            ("Found relevant information:" +:+ Py.nl
             +:+ "Hold the power button to restart.")
            (mkEnv Demo.stocked_store [] 2) _).
  vm_compute. reflexivity.
Defined.

(** Two tickets for one issue carry one identifier. *)
Example create_support_ticket_twice :
  fst (create_support_ticket "printer on fire" None
                             (Demo.env_of Demo.empty_store))
  = Ok ("Support ticket created: TKT-4065" +:+ Py.nl
        +:+ "Issue: printer on fire" +:+ Py.nl
        +:+ "Priority: medium" +:+ Py.nl +:+ "Status: Open")
  ∧ fst (create_support_ticket "printer on fire" (Some "high")
                               (Demo.env_of Demo.stocked_store))
    = Ok ("Support ticket created: TKT-4065" +:+ Py.nl
          +:+ "Issue: printer on fire" +:+ Py.nl
          +:+ "Priority: high" +:+ Py.nl +:+ "Status: Open").
Proof. split; reflexivity. Qed.

(** ** The further properties on the demo installation *)

#[local] Existing Instance DemoConsole.host.
#[local] Existing Instance Demo.searching_model.

Lemma chunks_only_from_supported_files_witness :
  let file_paths := ["kb/faq.txt"; "kb/missing.txt"; "kb/notes.xyz";
                     "kb/guide.MD"] in
  let w := Demo.env_of Demo.empty_store in
  let eligible := λ p, os_path_exists p
                       && bool_decide (file_extension_of p
                                       ∈ supported_extensions) in
  fst (gather_chunks Demo.kb file_paths [] w)
  = Ok (List.flat_map (file_chunks Demo.kb)
          (List.filter eligible file_paths))
  ∧ fst (gather_chunks Demo.kb file_paths [] w)
    = fst (gather_chunks Demo.kb (List.filter eligible file_paths) [] w)
  ∧ fst (add_documents Demo.kb file_paths w)
    = fst (add_documents Demo.kb (List.filter eligible file_paths) w)
  ∧ (fst (add_documents Demo.kb file_paths w) = Ok true →
     ∃ file_path root ext,
       file_path ∈ file_paths
       ∧ os_path_exists file_path = true
       ∧ file_path = root +:+ ext
       ∧ Py.lower ext ∈ supported_extensions).
Proof.
  exact (chunks_only_from_supported_files Demo.kb
           ["kb/faq.txt"; "kb/missing.txt"; "kb/notes.xyz"; "kb/guide.MD"]
           (Demo.env_of Demo.empty_store)).
Defined.

Lemma conversation_keeps_store_witness :
  store (env (snd (process_message
                     (CustomerSupportAgent_init Demo.kb ∅) "power"
                     (Demo.world_of Demo.stocked_store))))
  = store (env (Demo.world_of Demo.stocked_store)).
Proof.
  apply (conversation_keeps_store Demo.kb ∅ "power"
           (Demo.world_of Demo.stocked_store)).
  intros query k s. simpl. by destruct (Demo.collection s).
Defined.

Lemma ticket_ids_run_out_witness :
  ¬ NoDup (ticket_id_of <$> replicate (Z.to_nat 10001) "printer on fire").
Proof.
  apply (ticket_ids_run_out (replicate (Z.to_nat 10001) "printer on fire")).
  rewrite length_replicate. lia.
Defined.

Lemma extension_of_named_file_witness :
  Py.splitext ("docs/" +:+ "NOTES" +:+ "." +:+ "TXT") = ("docs/NOTES", ".TXT")
  ∧ file_extension_of ("docs/" +:+ "NOTES" +:+ "." +:+ "TXT") = ".txt".
Proof.
  apply (extension_of_named_file "docs/" "NOTES" "TXT");
    [right; by exists "docs" | reflexivity..].
Defined.

Lemma dot_files_are_not_loaded_witness :
  file_extension_of ("kb/" +:+ "" +:+ "." +:+ "txt") = ""
  ∧ file_chunks Demo.kb ("kb/" +:+ "" +:+ "." +:+ "txt") = []
  ∧ fst (load_document Demo.kb ("kb/" +:+ "" +:+ "." +:+ "txt")
           (Demo.env_of Demo.empty_store)) = Ok [].
Proof.
  apply (dot_files_are_not_loaded Demo.kb "kb/" "" "txt"
           (Demo.env_of Demo.empty_store));
    [right; by exists "kb" | reflexivity..].
Defined.

Lemma process_command_normalizes_witness :
  Console.process_command "  HELP "
    (DemoConsole.started Demo.searching_model)
  = Console.process_command (Console.normalize "  HELP ")
      (DemoConsole.started Demo.searching_model).
Proof.
  apply (process_command_normalizes "  HELP "
           (DemoConsole.started Demo.searching_model)).
  reflexivity.
Defined.

Lemma quit_ends_the_loop_witness :
  Console.main_loop [Line " Quit "; Line "status"]
    (DemoConsole.started Demo.searching_model)
  = (Ok tt,
     Console.mkSession (Some Demo.kb)
       (Some (Demo.agent_with Demo.searching_model)) false
       ([] ++ [Py.nl +:+ "💬 You: "; "👋 Goodbye! Have a great day!"]) []
       (Demo.world_of Demo.stocked_store)).
Proof.
  apply (quit_ends_the_loop " Quit " [Line "status"]
           (DemoConsole.started Demo.searching_model)).
  - reflexivity.
  - vm_compute. apply list_elem_of_here.
  - reflexivity.
Defined.

Lemma chat_reaches_agent_normalized_witness :
  ∃ answer w',
    process_message (Demo.agent_with Demo.searching_model)
      (Console.normalize " Hello There ")
      (Console.world (DemoConsole.started Demo.searching_model))
    = (Ok answer, w')
    ∧ last (chat_memory w') = Some (AIMessage answer)
    ∧ Console.process_command " Hello There "
        (DemoConsole.started Demo.searching_model)
      = (Ok tt,
         Console.mkSession (Some Demo.kb)
           (Some (Demo.agent_with Demo.searching_model)) true
           ([] ++ [Py.nl +:+ "🤖 AI Agent is thinking...";
                   Py.nl +:+ "🤖 AI Agent: " +:+ answer])
           [] w').
Proof.
  apply (chat_reaches_agent_normalized " Hello There "
           (Demo.agent_with Demo.searching_model)
           (DemoConsole.started Demo.searching_model));
    reflexivity.
Defined.

(** The message the agent remembers is the lower-cased one. *)
Example chat_is_remembered_in_lower_case :
  chat_memory (Console.world (snd (Console.process_command " Hello There "
                 (DemoConsole.started Demo.searching_model))))
  = [HumanMessage "hello there"; HumanMessage "hello there";
     AIMessage "No relevant information found in the knowledge base.";
     AIMessage "No relevant information found in the knowledge base."].
Proof. reflexivity. Qed.

Lemma upload_uses_lowercase_path_witness :
  Console.process_command ("upload " +:+ "Docs/Guide.md")
    (DemoConsole.started Demo.searching_model)
  = Console.upload_document (Py.lower "Docs/Guide.md")
      (DemoConsole.started Demo.searching_model)
  ∧ ∃ s', Console.upload_document (Py.lower "Docs/Guide.md")
            (DemoConsole.started Demo.searching_model) = (Ok tt, s')
      ∧ Console.world s'
        = Console.world (DemoConsole.started Demo.searching_model)
      ∧ Console.stdout s'
        = [] ++ ["❌ File not found: " +:+ Py.lower "Docs/Guide.md"].
Proof.
  refine (upload_uses_lowercase_path "Docs/Guide.md" Demo.kb
            (DemoConsole.started Demo.searching_model) _ _ _ _ _);
    try reflexivity.
  discriminate.
Defined.

Lemma uninitialised_commands_only_print_witness :
  ∃ s', Console.process_command "clear_kb"
          (Console.ConsoleInterface_init (Demo.world_of Demo.stocked_store))
        = (Ok tt, s')
        ∧ Console.world s' = Demo.world_of Demo.stocked_store
        ∧ Console.created s' = [].
Proof.
  apply (uninitialised_commands_only_print "clear_kb"
           (Console.ConsoleInterface_init
              (Demo.world_of Demo.stocked_store)));
    reflexivity.
Defined.

Lemma run_without_key_witness :
  Console.run DemoConsole.config_without_key [Line "hello"; Line "quit"]
    (Console.ConsoleInterface_init (Demo.world_of Demo.stocked_store))
  = (Ok tt,
     Console.mkSession None None false
       ["🤖 Welcome to AI Customer Support Agent!"; Console.rule;
        "🚀 Initializing AI Customer Support System...";
        "❌ Error initializing system: GOOGLE_API_KEY is required. "
        +:+ "Please set it in your .env file"] []
       (Demo.world_of Demo.stocked_store)).
Proof.
  apply (run_without_key DemoConsole.config_without_key
           [Line "hello"; Line "quit"] (Demo.world_of Demo.stocked_store)).
  reflexivity.
Defined.

(** A whole session on the demo: start, one upload, one question, quit. *)
Example console_session :
  let s := snd (Console.run DemoConsole.config
                  [Line "upload kb/faq.txt"; Line "What about Returns?";
                   Line "EXIT"; Line "status"]
                  (Console.ConsoleInterface_init
                     (Demo.world_of Demo.empty_store))) in
  Console.running s = false
  ∧ Demo.collection (store (env (Console.world s))) = Some [Demo.faq]
  ∧ length (chat_memory (Console.world s)) = 4%nat
  ∧ last (Console.stdout s) = Some "👋 Goodbye! Have a great day!".
Proof. vm_compute. repeat split. Qed.
